(** * LoggingCheck: the base class of the logging-stack health checks

    A shallow embedding of
    [roles/openshift_health_checker/openshift_checks/logging/logging.py]
    and the properties of its activation gate, node filter, pod query
    and pod classifier.

    The code works on the values Ansible and [json.loads] hand to it:
    [None], booleans, integers, strings, lists and dicts with string keys.
    Those values are the type [value] below (floating point numbers are
    left out: no operation of the file looks at one).  Python exceptions
    are results of the type [result]; every function of the source that
    can raise returns a [result] here. *)

From Stdlib Require Import ZArith List String Ascii Bool Lia.
From Stdlib Require Import Numbers.DecimalString.
Import ListNotations.
Set Warnings "-register-all".
Open Scope list_scope.
Open Scope string_scope.

(** ** Python values and exceptions *)

Module Py.

Inductive value : Type :=
| VNone
| VBool (b : bool)
| VInt (n : Z)
| VStr (s : string)
| VList (l : list value)
| VDict (d : list (string * value)).

(** The exceptions the file raises, catches, or lets through. *)
Inductive exn : Type :=
| KeyError (k : value)
| IndexError
| TypeError
| AttributeError
| ValueError
| OpenShiftCheckException (msg : string).

Inductive result (A : Type) : Type :=
| Ok (a : A)
| Raise (e : exn).

Arguments Ok {A} a.
Arguments Raise {A} e.

Definition bind {A B : Type} (c : result A) (k : A -> result B) : result B :=
  match c with
  | Ok a => k a
  | Raise e => Raise e
  end.

Notation "x <- c ;; k" := (bind c (fun x => k))
  (at level 61, c at next level, right associativity).

(** [bool(v)]: the truth value Python gives to [v]. *)
Definition truthy (v : value) : bool :=
  match v with
  | VNone => false
  | VBool b => b
  | VInt n => negb (n =? 0)%Z
  | VStr s => negb (s =? "")
  | VList l => match l with [] => false | _ :: _ => true end
  | VDict d => match d with [] => false | _ :: _ => true end
  end.

(** [a or b], where [b] has no effect. *)
Definition py_or (a b : value) : value := if truthy a then a else b.

(** A dict is an association list with distinct keys; the first binding of
    a key is the one a lookup finds. *)
Fixpoint lookup (k : string) (d : list (string * value)) : option value :=
  match d with
  | [] => None
  | (k', v) :: rest => if k' =? k then Some v else lookup k rest
  end.

Fixpoint string_chars (s : string) : list value :=
  match s with
  | EmptyString => []
  | String c rest => VStr (String c EmptyString) :: string_chars rest
  end.

(** Sequence indexing with Python's negative indices. *)
Definition seq_index (l : list value) (i : Z) : result value :=
  let n := Z.of_nat (List.length l) in
  let j := if (i <? 0)%Z then (i + n)%Z else i in
  if (j <? 0)%Z then Raise IndexError
  else match nth_error l (Z.to_nat j) with
       | Some x => Ok x
       | None => Raise IndexError
       end.

(** [v[k]] ([operator.getitem]). *)
Definition py_getitem (v k : value) : result value :=
  match v with
  | VDict d =>
      match k with
      | VStr s => match lookup s d with
                  | Some x => Ok x
                  | None => Raise (KeyError k)
                  end
      | VList _ | VDict _ => Raise TypeError
      | _ => Raise (KeyError k)
      end
  | VList l =>
      match k with
      | VInt i => seq_index l i
      | VBool b => seq_index l (Z.b2z b)
      | _ => Raise TypeError
      end
  | VStr s =>
      match k with
      | VInt i => seq_index (string_chars s) i
      | VBool b => seq_index (string_chars s) (Z.b2z b)
      | _ => Raise TypeError
      end
  | _ => Raise TypeError
  end.

(** [v.get(k, default)]: only dicts have the method. *)
Definition py_get (v : value) (k : string) (default : value) : result value :=
  match v with
  | VDict d => Ok (match lookup k d with Some x => x | None => default end)
  | _ => Raise AttributeError
  end.

(** [iter(v)], run to the end: the items a [for] loop over [v] sees. *)
Definition py_iter (v : value) : result (list value) :=
  match v with
  | VList l => Ok l
  | VStr s => Ok (string_chars s)
  | VDict d => Ok (map (fun kv => VStr (fst kv)) d)
  | _ => Raise TypeError
  end.

(** [any(f(x) for x in l)]: stops at the first true item, and at the first
    item whose evaluation raises. *)
Fixpoint py_any (f : value -> result bool) (l : list value) : result bool :=
  match l with
  | [] => Ok false
  | x :: rest => b <- f x ;; if b then Ok true else py_any f rest
  end.

(** [[x for x in l if f(x)]]. *)
Fixpoint py_filter (f : value -> result bool) (l : list value)
  : result (list value) :=
  match l with
  | [] => Ok []
  | x :: rest =>
      b <- f x ;;
      kept <- py_filter f rest ;;
      Ok (if b then x :: kept else kept)
  end.

(** [a == b].  [True] and [False] are the integers 1 and 0; lists compare
    item by item and dicts binding by binding, whatever the order. *)
Fixpoint py_eq (a b : value) {struct a} : bool :=
  match a, b with
  | VNone, VNone => true
  | VBool x, VBool y => Bool.eqb x y
  | VBool x, VInt y => (Z.b2z x =? y)%Z
  | VInt x, VBool y => (x =? Z.b2z y)%Z
  | VInt x, VInt y => (x =? y)%Z
  | VStr x, VStr y => (x =? y)
  | VList xs, VList ys =>
      (fix items (xs ys : list value) {struct xs} : bool :=
         match xs, ys with
         | [], [] => true
         | x :: xs', y :: ys' => py_eq x y && items xs' ys'
         | _, _ => false
         end) xs ys
  | VDict d1, VDict d2 =>
      (List.length d1 =? List.length d2)%nat &&
      (fix bindings (d : list (string * value)) {struct d} : bool :=
         match d with
         | [] => true
         | (k, x) :: d' =>
             (fix find (e : list (string * value)) {struct e} : bool :=
                match e with
                | [] => false
                | (k', y) :: e' => if k' =? k then py_eq x y else find e'
                end) d2 && bindings d'
         end) d1
  | _, _ => false
  end.

(** [v is False]. *)
Definition is_False (v : value) : bool :=
  match v with
  | VBool false => true
  | _ => false
  end.

(** *** Text: [str], [repr] and [os.path.join] *)

Definition dquote : string := String "034"%char EmptyString.
Definition nl : string := String "010"%char EmptyString.

Definition hex_digit (n : nat) : string := substring n 1 "0123456789abcdef".

Definition backslash : ascii := "092"%char.

Definition escape (c : string) : string := String backslash c.

Definition repr_char (quote c : ascii) : string :=
  let n := nat_of_ascii c in
  if (c =? backslash)%char then escape (String backslash EmptyString)
  else if (c =? quote)%char then escape (String quote EmptyString)
  else if (n =? 10)%nat then escape "n"
  else if (n =? 13)%nat then escape "r"
  else if (n =? 9)%nat then escape "t"
  else if (n <? 32)%nat || (n =? 127)%nat
          || ((128 <=? n)%nat && (n <=? 160)%nat) || (n =? 173)%nat
       then escape ("x" ++ hex_digit (n / 16) ++ hex_digit (n mod 16))
       else String c EmptyString.

Fixpoint has_char (c : ascii) (s : string) : bool :=
  match s with
  | EmptyString => false
  | String c' rest => (c' =? c)%char || has_char c rest
  end.

Fixpoint repr_chars (quote : ascii) (s : string) : string :=
  match s with
  | EmptyString => EmptyString
  | String c rest => repr_char quote c ++ repr_chars quote rest
  end.

(** [repr] of a string: single quotes, unless the text has a single quote
    and no double quote. *)
Definition repr_string (s : string) : string :=
  let quote :=
    if has_char "'"%char s && negb (has_char "034"%char s)
    then "034"%char else "'"%char in
  String quote (repr_chars quote s ++ String quote EmptyString).

Fixpoint py_repr (v : value) : string :=
  match v with
  | VNone => "None"
  | VBool true => "True"
  | VBool false => "False"
  | VInt n => NilEmpty.string_of_int (Z.to_int n)
  | VStr s => repr_string s
  | VList l =>
      "[" ++
      (fix items (l : list value) : string :=
         match l with
         | [] => ""
         | x :: rest =>
             match rest with
             | [] => py_repr x
             | _ :: _ => py_repr x ++ ", " ++ items rest
             end
         end) l ++ "]"
  | VDict d =>
      "{" ++
      (fix bindings (d : list (string * value)) : string :=
         match d with
         | [] => ""
         | (k, x) :: rest =>
             match rest with
             | [] => repr_string k ++ ": " ++ py_repr x
             | _ :: _ => repr_string k ++ ": " ++ py_repr x ++ ", " ++ bindings rest
             end
         end) d ++ "}"
  end.

(** [str(v)], which is also what [str.format] puts in place of a field. *)
Definition py_str (v : value) : string :=
  match v with
  | VStr s => s
  | _ => py_repr v
  end.

Fixpoint ends_with (c : ascii) (s : string) : bool :=
  match s with
  | EmptyString => false
  | String c' EmptyString => (c' =? c)%char
  | String _ rest => ends_with c rest
  end.

(** [posixpath.join] on text. *)
Fixpoint posix_join (a : string) (parts : list string) : string :=
  match parts with
  | [] => a
  | b :: rest =>
      posix_join
        (if prefix "/" b then b
         else if (a =? "") || ends_with "/"%char a then a ++ b
         else a ++ "/" ++ b)
        rest
  end.

(** [os.path.join(a, *parts)], where the parts are string constants: a first
    component that is not text is a [TypeError]. *)
Definition os_path_join (a : value) (parts : list string) : result string :=
  match a with
  | VStr s => Ok (posix_join s parts)
  | _ => Raise TypeError
  end.

(** [sep.join(parts)]. *)
Fixpoint str_join (sep : string) (parts : list string) : string :=
  match parts with
  | [] => ""
  | p :: rest =>
      match rest with
      | [] => p
      | _ :: _ => p ++ sep ++ str_join sep rest
      end
  end.

End Py.
Import Py.

(** ** The variable resolver *)

(** [reduce(operator.getitem, keys, task_vars)]. *)
Fixpoint reduce_getitem (keys : list string) (v : value) : result value :=
  match keys with
  | [] => Ok v
  | k :: rest => x <- py_getitem v (VStr k) ;; reduce_getitem rest x
  end.

(** Modelled from the spec: [get_var] is defined in
    [openshift_checks/__init__.py], which is not part of the sources at
    hand.  The spec gives its interface:
    "getVar(context, ...pathSegments, default=optional) -> value,
    raises/returns-default if unresolved", a "hierarchical lookup of
    configuration values by path, with default fallback".  A path that does
    not resolve gives the default when there is one and raises the domain
    error otherwise. *)
Definition get_var (task_vars : value) (keys : list string)
    (default : option value) : result value :=
  match reduce_getitem keys task_vars with
  | Ok v => Ok v
  | Raise (KeyError _) | Raise TypeError =>
      match default with
      | Some d => Ok d
      | None =>
          Raise (OpenShiftCheckException
                   ("'" ++ str_join "." keys ++ "' is undefined"))
      end
  | Raise e => Raise e
  end.

(** ** class LoggingCheck *)

Module LoggingCheck.

Definition name : string := "logging".
Definition logging_namespace : string := "logging".

(** The command executor, [execute_module(module_name, module_args, tmp,
    task_vars)]. *)
Definition executor : Type :=
  string -> value -> value -> value -> result value.

Definition no_such_file : string := "[Errno 2] No such file or directory".

(** The two diagnoses of [exec_oc]. *)
Definition unexpected_error_msg (cmd error : value) : string :=
  "Unexpected error using `oc` to validate the logging stack components."
  ++ nl ++ "Error executing `oc " ++ py_str cmd ++ "`:" ++ nl
  ++ py_str error.

Definition missing_oc_msg : string :=
  "This host is supposed to be a master but does not have the `oc` command where expected."
  ++ nl ++ "Has an installation been run on this host yet?".

(** The [args] dict of [exec_oc]. *)
Definition oc_args (namespace : value) (config_file : string) (cmd_str : value)
    (extra_args : value) : value :=
  VDict [ ("namespace", namespace);
          ("config_file", VStr config_file);
          ("cmd", cmd_str);
          ("extra_args", extra_args) ].

Definition exec_oc (execute_module : executor) (namespace : value)
    (cmd_str : value) (extra_args : value) (task_vars : value)
  : result value :=
  config_base <- get_var task_vars ["openshift"; "common"; "config_base"] None ;;
  config_file <- os_path_join config_base ["master"; "admin.kubeconfig"] ;;
  extra <- (if truthy extra_args
            then l <- py_iter extra_args ;; Ok (VList l)
            else Ok (VList [])) ;;
  let args := oc_args namespace config_file cmd_str extra in
  result <- execute_module "ocutil" args VNone task_vars ;;
  failed <- py_get result "failed" VNone ;;
  if truthy failed then
    cmd <- py_getitem args (VStr "cmd") ;;
    error <- py_getitem result (VStr "result") ;;
    let msg := unexpected_error_msg cmd error in
    error' <- py_getitem result (VStr "result") ;;
    let msg := if py_eq error' (VStr no_such_file) then missing_oc_msg else msg in
    Raise (OpenShiftCheckException msg)
  else
    py_get result "result" (VStr "").

Definition is_first_master (task_vars : value) : result value :=
  h <- get_var task_vars ["ansible_ssh_host"] None ;;
  let hostname := py_or h (VList [VNone]) in
  m <- get_var task_vars ["groups"; "masters"] (Some VNone) ;;
  let masters := py_or m (VList [VNone]) in
  if truthy masters then
    first <- py_getitem masters (VInt 0) ;;
    Ok (VBool (py_eq first hostname))
  else Ok masters.

(** [run] does nothing in the base class. *)
Definition run (tmp task_vars : value) : result value := Ok VNone.

Definition no_pods_msg (logging_component : value) : string :=
  "No pods were found for the " ++ dquote ++ py_str logging_component
  ++ dquote ++ " logging component.".

Definition pod_not_running (pod : value) : result bool :=
  status <- py_get pod "status" (VDict []) ;;
  statuses <- py_get status "containerStatuses" VNone ;;
  if negb (truthy statuses) then Ok true else
  status <- py_getitem pod (VStr "status") ;;
  statuses <- py_getitem status (VStr "containerStatuses") ;;
  containers <- py_iter statuses ;;
  unready <- py_any (fun container =>
                       ready <- py_getitem container (VStr "ready") ;;
                       Ok (is_False ready)) containers ;;
  if unready then Ok true else
  status <- py_getitem pod (VStr "status") ;;
  conds <- py_get status "conditions" (VList []) ;;
  conditions <- py_iter conds ;;
  ready <- py_any (fun condition =>
                     type <- py_getitem condition (VStr "type") ;;
                     if py_eq type (VStr "Ready") then
                       status <- py_getitem condition (VStr "status") ;;
                       Ok (py_eq status (VStr "True"))
                     else Ok false) conditions ;;
  Ok (negb ready).

Definition not_running_pods (pods : value) : result value :=
  l <- py_iter pods ;;
  kept <- py_filter pod_not_running l ;;
  Ok (VList kept).

Section Collaborators.

(** [json.loads], of the Python library: a [ValueError] on text that is not
    JSON. *)
Variable json_loads : value -> result value.

(** [OpenShiftCheck.is_active], the activation predicate of the base class,
    which is defined outside this file. *)
Variable super_is_active : value -> result value.

Definition is_active (task_vars : value) : result value :=
  logging_deployed <-
    get_var task_vars ["openshift_hosted_logging_deploy"] (Some (VBool false)) ;;
  base <- super_is_active task_vars ;;
  if negb (truthy base) then Ok base else
  first <- is_first_master task_vars ;;
  if negb (truthy first) then Ok first else
  Ok logging_deployed.

Definition get_pods_for_component (execute_module : executor)
    (namespace : value) (logging_component : value) (task_vars : value)
  : result (value * value) :=
  pod_output <- exec_oc execute_module namespace
                  (VStr ("get pods -l component=" ++ py_str logging_component
                         ++ " -o json"))
                  (VList []) task_vars ;;
  let attempt :=
    pods <- json_loads pod_output ;;
    empty <- (if negb (truthy pods) then Ok true
              else items <- py_get pods "items" VNone ;;
                   Ok (negb (truthy items))) ;;
    if (empty : bool) then Raise ValueError else Ok pods in
  match attempt with
  | Raise ValueError => Ok (VNone, VStr (no_pods_msg logging_component))
  | Raise e => Raise e
  | Ok pods =>
      items <- py_getitem pods (VStr "items") ;;
      Ok (items, VNone)
  end.

End Collaborators.

End LoggingCheck.
Import LoggingCheck.

(** ** Vocabulary of the properties *)

(** The field [k] of a record (a dict); nothing for other values. *)
Definition field (k : string) (v : value) : option value :=
  match v with
  | VDict d => lookup k d
  | _ => None
  end.

(** [status.containerStatuses] and [status.conditions] of a pod. *)
Definition container_statuses (pod : value) : option value :=
  match field "status" pod with
  | Some status => field "containerStatuses" status
  | None => None
  end.

Definition conditions (pod : value) : option value :=
  match field "status" pod with
  | Some status => field "conditions" status
  | None => None
  end.

Definition is_record (v : value) : bool :=
  match v with
  | VDict _ => true
  | _ => false
  end.

(** An optional field that, when present, is a sequence of records. *)
Definition records_or_absent (v : option value) : bool :=
  match v with
  | None => true
  | Some (VList l) => forallb is_record l
  | Some _ => false
  end.

(** The pod has the layout of the data model: a record whose [status], when
    present, is a record whose [containerStatuses] and [conditions], when
    present, are sequences of records. *)
Definition pod_records (pod : value) : bool :=
  match pod with
  | VDict p =>
      match lookup "status" p with
      | None => true
      | Some (VDict status) =>
          records_or_absent (lookup "containerStatuses" status)
          && records_or_absent (lookup "conditions" status)
      | Some _ => false
      end
  | _ => false
  end.

Definition has_field (k : string) (v : value) : bool :=
  match field k v with
  | Some _ => true
  | None => false
  end.

Definition entries_have (keys : list string) (v : option value) : bool :=
  match v with
  | Some (VList l) => forallb (fun e => forallb (fun k => has_field k e) keys) l
  | _ => true
  end.

(** Every [containerStatuses] entry has ['ready'] and every [conditions]
    entry has ['type'] and ['status']. *)
Definition pod_fields (pod : value) : bool :=
  entries_have ["ready"] (container_statuses pod)
  && entries_have ["type"; "status"] (conditions pod).

Definition pod_well_shaped (pod : value) : bool :=
  pod_records pod && pod_fields pod.

(** The three conditions of the classification rule, in the words of the
    specification. *)
Definition no_container_statuses (pod : value) : Prop :=
  container_statuses pod = None.

Definition some_container_not_ready (pod : value) : Prop :=
  exists l c,
    container_statuses pod = Some (VList l) /\ In c l
    /\ field "ready" c = Some (VBool false).

Definition has_ready_condition (pod : value) : Prop :=
  exists l c,
    conditions pod = Some (VList l) /\ In c l
    /\ field "type" c = Some (VStr "Ready")
    /\ field "status" c = Some (VStr "True").

(** The rule as the specification words it. *)
Definition spec_not_running (pod : value) : Prop :=
  no_container_statuses pod
  \/ some_container_not_ready pod
  \/ ~ has_ready_condition pod.

(** What the code adds to the rule: a [containerStatuses] sequence that is
    present and empty. *)
Definition empty_container_statuses (pod : value) : Prop :=
  container_statuses pod = Some (VList []).

Definition all_containers_ready (pod : value) : Prop :=
  exists l,
    container_statuses pod = Some (VList l)
    /\ forall c, In c l -> field "ready" c = Some (VBool true).

(** The classification of a well shaped pod as a boolean. *)
Definition container_unready (c : value) : bool :=
  match field "ready" c with
  | Some r => is_False r
  | None => false
  end.

Definition condition_ready (c : value) : bool :=
  match field "type" c, field "status" c with
  | Some t, Some s => py_eq t (VStr "Ready") && py_eq s (VStr "True")
  | _, _ => false
  end.

Definition seq_exists (f : value -> bool) (v : option value) : bool :=
  match v with
  | Some (VList l) => existsb f l
  | _ => false
  end.

Definition classified_not_running (pod : value) : bool :=
  match container_statuses pod with
  | None | Some (VList []) => true
  | _ => seq_exists container_unready (container_statuses pod)
         || negb (seq_exists condition_ready (conditions pod))
  end.

(** [kept] is [l] with some items left out. *)
Inductive subsequence {A : Type} : list A -> list A -> Prop :=
| subseq_nil : subsequence [] []
| subseq_skip x kept l : subsequence kept l -> subsequence kept (x :: l)
| subseq_keep x kept l : subsequence kept l -> subsequence (x :: kept) (x :: l).

(** [needle] occurs in [text]. *)
Definition occurs_in (needle text : string) : Prop :=
  exists before after, text = before ++ needle ++ after.

Fixpoint is_infix (needle text : string) : bool :=
  prefix needle text
  || match text with
     | EmptyString => false
     | String _ rest => is_infix needle rest
     end.

(** ** Sample data *)

Definition container (ready : bool) : value := VDict [("ready", VBool ready)].

Definition ready_condition : value :=
  VDict [("type", VStr "Ready"); ("status", VStr "True")].

Definition pod_of (statuses conds : list value) : value :=
  VDict [("status", VDict [("containerStatuses", VList statuses);
                           ("conditions", VList conds)])].

Definition pod_running : value := pod_of [container true] [ready_condition].
Definition pod_crashing : value :=
  pod_of [container true; container false] [ready_condition].
Definition pod_pending : value := VDict [("status", VDict [])].
Definition pod_no_statuses_yet : value := pod_of [] [ready_condition].
Definition pod_scheduled_only : value := pod_of [] [ready_condition; ready_condition].

(** Pods whose records miss a field. *)
Definition pod_unready_then_blank : value :=
  pod_of [container false; VDict []] [ready_condition].
Definition pod_blank_status : value := pod_of [VDict []] [ready_condition].

(** Contexts.  [tv_first_master] is the first master of a cluster with
    logging deployed; [tv_flag_off] is the same host without the flag;
    [tv_second_master] is another master; in [tv_null_host] the host address
    is null and there is no group of masters. *)
Definition config_vars : list (string * value) :=
  [("openshift", VDict [("common", VDict [("config_base", VStr "/etc/origin")])])].

Definition tv_flag_off : value :=
  VDict (("ansible_ssh_host", VStr "master1")
         :: ("groups", VDict [("masters", VList [VStr "master1"; VStr "master2"])])
         :: config_vars).

Definition tv_first_master : value :=
  VDict (("openshift_hosted_logging_deploy", VBool true)
         :: ("ansible_ssh_host", VStr "master1")
         :: ("groups", VDict [("masters", VList [VStr "master1"; VStr "master2"])])
         :: config_vars).

Definition tv_second_master : value :=
  VDict (("ansible_ssh_host", VStr "master2")
         :: ("groups", VDict [("masters", VList [VStr "master1"; VStr "master2"])])
         :: config_vars).

Definition tv_null_host : value := VDict [("ansible_ssh_host", VNone)].

(** A base class whose checks are always active. *)
Definition base_always_active : value -> result value :=
  fun _ => Ok (VBool true).

(** Executors that answer every call with the same result. *)
Definition answer (r : list (string * value)) : executor :=
  fun _ _ _ _ => Ok (VDict r).

Definition oc_missing : executor :=
  answer [("failed", VBool true); ("result", VStr no_such_file)].
Definition oc_denied : executor :=
  answer [("failed", VBool true); ("result", VStr "permission denied")].
Definition module_failure : executor :=
  answer [("failed", VBool true); ("msg", VStr "MODULE FAILURE")].
Definition oc_prints (out : string) : executor :=
  answer [("failed", VBool false); ("result", VStr out)].

(** Three JSON texts, and [json.loads] on them; the stand-in refuses every
    other text. *)
Definition json_no_items : string :=
  "{" ++ dquote ++ "items" ++ dquote ++ ": []}".
Definition json_one_pod : string :=
  "{" ++ dquote ++ "items" ++ dquote ++ ": [{}]}".

Definition json_loads_sample (v : value) : result value :=
  match v with
  | VStr s =>
      if s =? json_no_items then Ok (VDict [("items", VList [])])
      else if s =? json_one_pod then Ok (VDict [("items", VList [VDict []])])
      else if s =? "{}" then Ok (VDict [])
      else Raise ValueError
  | _ => Raise TypeError
  end.

(** The values [is_first_master] compares, after the fallbacks. *)
Definition resolved_hostname (h : value) : value := py_or h (VList [VNone]).
Definition resolved_masters (m : value) : value := py_or m (VList [VNone]).

(** The call [exec_oc] makes, for a configuration directory [base]. *)
Definition oc_call (execute_module : executor) (namespace : value)
    (base : string) (cmd_str : value) (extra_args : list value)
    (task_vars : value) : result value :=
  execute_module "ocutil"
    (oc_args namespace (posix_join base ["master"; "admin.kubeconfig"])
       cmd_str (VList extra_args))
    VNone task_vars.

(** The [failed] flag and the output field of an executor result. *)
Definition failed_flag (r : list (string * value)) : bool :=
  match lookup "failed" r with
  | Some f => truthy f
  | None => false
  end.

Definition get_pods_cmd (logging_component : string) : value :=
  VStr ("get pods -l component=" ++ logging_component ++ " -o json").

(** *** Vocabulary of the further properties *)

(** The pod reports no container status: [status] or [containerStatuses] is
    missing, or [containerStatuses] is falsy (null, an empty sequence). *)
Definition no_statuses_reported (pod : value) : Prop :=
  exists p,
    pod = VDict p
    /\ (lookup "status" p = None
        \/ exists st,
             lookup "status" p = Some (VDict st)
             /\ (lookup "containerStatuses" st = None
                 \/ exists v,
                      lookup "containerStatuses" st = Some v
                      /\ truthy v = false)).

(** The entry has a ['ready'] field that is not the object [False]. *)
Definition ready_not_False (c : value) : Prop :=
  exists r, field "ready" c = Some r /\ is_False r = false.

(** Some container status has [ready] false, and the entries before it
    have a ['ready'] field. *)
Definition unready_container_reached (pod : value) : Prop :=
  exists before c after,
    container_statuses pod = Some (VList (before ++ c :: after))
    /\ Forall ready_not_False before
    /\ field "ready" c = Some (VBool false).

(** The evaluation of the pod comes to a [containerStatuses] entry without
    ['ready']: no entry before it has [ready] false (each has the field). *)
Definition missing_ready_reached (pod : value) : Prop :=
  exists before c after,
    container_statuses pod = Some (VList (before ++ c :: after))
    /\ Forall ready_not_False before
    /\ field "ready" c = None.

(** The container statuses do not decide: the sequence is non-empty, every
    entry has ['ready'] and none is [False], so the conditions are looked
    at. *)
Definition containers_pass (pod : value) : Prop :=
  exists c l,
    container_statuses pod = Some (VList (c :: l))
    /\ Forall ready_not_False (c :: l).

(** A conditions entry that is looked at and found not to be
    "Ready"/"True": its type is not "Ready" (its status is then not looked
    up), or its status is there and is not "True". *)
Definition condition_not_ready (d : value) : Prop :=
  exists t,
    field "type" d = Some t
    /\ (py_eq t (VStr "Ready") = false
        \/ exists s,
             field "status" d = Some s /\ py_eq s (VStr "True") = false).

(** The evaluation comes to a conditions entry without ['type'], or to one
    of type "Ready" without ['status']: no entry before it is
    "Ready"/"True". *)
Definition missing_type_reached (pod : value) : Prop :=
  containers_pass pod
  /\ exists before d after,
       conditions pod = Some (VList (before ++ d :: after))
       /\ Forall condition_not_ready before
       /\ field "type" d = None.

Definition missing_status_reached (pod : value) : Prop :=
  containers_pass pod
  /\ exists before d after,
       conditions pod = Some (VList (before ++ d :: after))
       /\ Forall condition_not_ready before
       /\ field "type" d = Some (VStr "Ready")
       /\ field "status" d = None.

(** The evaluation of the pod comes to a lookup of the field [k] in an
    entry that does not have it. *)
Definition lookup_failure (pod : value) (k : string) : Prop :=
  (k = "ready" /\ missing_ready_reached pod)
  \/ (k = "type" /\ missing_type_reached pod)
  \/ (k = "status" /\ missing_status_reached pod).

(** Pods whose conditions miss a field. *)
Definition pod_blank_condition : value :=
  pod_of [container true] [VDict []; ready_condition].
Definition pod_ready_without_status : value :=
  pod_of [container true]
    [VDict [("type", VStr "Initialized")]; VDict [("type", VStr "Ready")]].

(** A non-empty [containerStatuses] sequence, no entry of which has
    [ready] equal to [False]. *)
Definition no_container_is_False (pod : value) : Prop :=
  exists c l,
    container_statuses pod = Some (VList (c :: l))
    /\ forall x, In x (c :: l) -> field "ready" x <> Some (VBool false).

(** More sample data. *)
Definition pod_null_ready : value :=
  pod_of [VDict [("ready", VNone)]; VDict [("ready", VInt 0)]] [ready_condition].

Definition pod_null_statuses : value :=
  VDict [("status", VDict [("containerStatuses", VNone); ("conditions", VInt 7)])].

Definition pod_unready_odd_rest : value :=
  VDict [("status",
          VDict [("containerStatuses",
                  VList [container true; container false; VInt 3]);
                 ("conditions", VNone)])].

Definition tv_masters_by_name : value :=
  VDict [("ansible_ssh_host", VStr "master1");
         ("groups", VDict [("masters", VDict [("primary", VStr "master1")])])].

Definition tv_flag_false_masters_by_name : value :=
  VDict [("openshift_hosted_logging_deploy", VBool false);
         ("ansible_ssh_host", VStr "master1");
         ("groups", VDict [("masters", VDict [("primary", VStr "master1")])])].

Definition tv_no_masters : value :=
  VDict [("ansible_ssh_host", VStr "master1");
         ("groups", VDict [("masters", VList [])])].

Definition tv_flag_text : value :=
  VDict [("openshift_hosted_logging_deploy", VStr "yes");
         ("ansible_ssh_host", VStr "master1");
         ("groups", VDict [("masters", VList [VStr "master1"])])].

Definition base_never_active : value -> result value :=
  fun _ => Ok (VBool false).

(** An executor that hands back the arguments it was called with. *)
Definition oc_echo : executor :=
  fun _ args _ _ => Ok (VDict [("result", args)]).

(** An executor that cannot be reached. *)
Definition oc_unreachable : executor :=
  fun _ _ _ _ => Raise (OpenShiftCheckException "unreachable").

(** ** The classifier on well shaped pods *)

Lemma py_any_existsb (f : value -> result bool) (g : value -> bool) l :
  (forall x, In x l -> f x = Ok (g x)) -> py_any f l = Ok (existsb g l).
Proof.
  induction l as [|x l IH]; intros H; simpl.
  - reflexivity.
  - rewrite (H x (or_introl eq_refl)). simpl.
    destruct (g x); simpl; [reflexivity|].
    apply IH. intros y Hy. apply H. now right.
Qed.

Lemma py_filter_filter (f : value -> result bool) (g : value -> bool) l :
  (forall x, In x l -> f x = Ok (g x)) -> py_filter f l = Ok (filter g l).
Proof.
  induction l as [|x l IH]; intros H; simpl.
  - reflexivity.
  - rewrite (H x (or_introl eq_refl)). simpl.
    rewrite IH by (intros y Hy; apply H; now right). simpl.
    reflexivity.
Qed.

Lemma has_field_getitem k c :
  is_record c = true -> has_field k c = true ->
  exists x, field k c = Some x /\ py_getitem c (VStr k) = Ok x.
Proof.
  destruct c; simpl; try discriminate. intros _.
  unfold has_field. simpl. destruct (lookup k d) as [x|]; [|discriminate].
  intros _. now exists x.
Qed.

Lemma container_check c :
  is_record c = true -> has_field "ready" c = true ->
  (ready <- py_getitem c (VStr "ready") ;; Ok (is_False ready))
  = Ok (container_unready c).
Proof.
  intros Hr Hf. destruct (has_field_getitem _ _ Hr Hf) as (x & Hx & Hg).
  rewrite Hg. unfold container_unready. rewrite Hx. reflexivity.
Qed.

Lemma condition_check c :
  is_record c = true -> has_field "type" c = true ->
  has_field "status" c = true ->
  (type <- py_getitem c (VStr "type") ;;
   if py_eq type (VStr "Ready")
   then status <- py_getitem c (VStr "status") ;; Ok (py_eq status (VStr "True"))
   else Ok false)
  = Ok (condition_ready c).
Proof.
  intros Hr Ht Hs.
  destruct (has_field_getitem _ _ Hr Ht) as (t & Hft & Hgt).
  destruct (has_field_getitem _ _ Hr Hs) as (s & Hfs & Hgs).
  rewrite Hgt. unfold condition_ready. rewrite Hft, Hfs. simpl.
  destruct (py_eq t (VStr "Ready")); simpl; [|reflexivity].
  rewrite Hgs. reflexivity.
Qed.

Lemma pod_not_running_classified pod :
  pod_well_shaped pod = true ->
  pod_not_running pod = Ok (classified_not_running pod).
Proof.
  unfold pod_well_shaped, pod_fields, classified_not_running,
    container_statuses, conditions.
  destruct pod as [| | | | |p]; simpl; try discriminate.
  unfold pod_not_running. simpl.
  destruct (lookup "status" p) as [status|] eqn:Hst; simpl; [|reflexivity].
  destruct status as [| | | | |st]; simpl; try discriminate.
  destruct (lookup "containerStatuses" st) as [cs|] eqn:Hcs; simpl;
    [|reflexivity].
  destruct cs as [| | | |l|]; simpl; try discriminate.
  destruct l as [|c l]; [reflexivity|].
  cbn [negb]. intros H. apply andb_prop in H as [Hrec Hfld].
  apply andb_prop in Hrec as [Hrc Hrd].
  apply andb_prop in Hfld as [Hfc Hfd].
  rewrite forallb_forall in Hrc, Hfc.
  rewrite (py_any_existsb _ container_unready).
  2:{ intros x Hx. apply container_check; [now apply Hrc|].
      specialize (Hfc x Hx). simpl in Hfc.
      now rewrite andb_true_r in Hfc. }
  cbn [bind].
  destruct (existsb container_unready (c :: l)) eqn:Hex; [reflexivity|].
  cbn [orb].
  destruct (lookup "conditions" st) as [cd|] eqn:Hcd; [|reflexivity].
  destruct cd as [| | | |dl|]; try discriminate.
  cbn [py_iter bind seq_exists]. cbn [records_or_absent entries_have] in Hrd, Hfd.
  rewrite forallb_forall in Hrd, Hfd.
  rewrite (py_any_existsb _ condition_ready).
  2:{ intros x Hx. specialize (Hfd x Hx). simpl in Hfd.
      rewrite andb_true_r in Hfd. apply andb_prop in Hfd as [Ht Hs].
      apply condition_check; auto. }
  reflexivity.
Qed.

Lemma py_eq_str v s : py_eq v (VStr s) = true <-> v = VStr s.
Proof.
  destruct v; simpl; split; intros H; try discriminate.
  - apply String.eqb_eq in H. now subst.
  - injection H as ->. apply String.eqb_refl.
Qed.

Lemma container_unready_iff c :
  container_unready c = true <-> field "ready" c = Some (VBool false).
Proof.
  unfold container_unready. destruct (field "ready" c) as [r|].
  - destruct r as [|[|]| | | |]; simpl; split; intros H;
      try discriminate; reflexivity.
  - split; discriminate.
Qed.

Lemma condition_ready_iff c :
  condition_ready c = true
  <-> field "type" c = Some (VStr "Ready")
      /\ field "status" c = Some (VStr "True").
Proof.
  unfold condition_ready.
  destruct (field "type" c) as [t|], (field "status" c) as [s|];
    try (split; [discriminate | intros [? ?]; discriminate]).
  rewrite andb_true_iff, !py_eq_str.
  split; intros [H1 H2]; split; congruence.
Qed.

Lemma some_container_not_ready_iff pod :
  seq_exists container_unready (container_statuses pod) = true
  <-> some_container_not_ready pod.
Proof.
  unfold some_container_not_ready, seq_exists. split.
  - destruct (container_statuses pod) as [[| | | |l|]|]; try discriminate.
    intros H. apply existsb_exists in H as (c & Hc & Hu).
    exists l, c. repeat split; auto. now apply container_unready_iff.
  - intros (l & c & -> & Hc & Hr). apply existsb_exists. exists c.
    split; auto. now apply container_unready_iff.
Qed.

Lemma has_ready_condition_iff pod :
  seq_exists condition_ready (conditions pod) = true
  <-> has_ready_condition pod.
Proof.
  unfold has_ready_condition, seq_exists. split.
  - destruct (conditions pod) as [[| | | |l|]|]; try discriminate.
    intros H. apply existsb_exists in H as (c & Hc & Hr).
    apply condition_ready_iff in Hr as [Ht Hs]. now exists l, c.
  - intros (l & c & -> & Hc & Ht & Hs). apply existsb_exists. exists c.
    split; auto. now apply condition_ready_iff.
Qed.

Lemma records_container_statuses pod :
  pod_records pod = true ->
  container_statuses pod = None
  \/ exists l, container_statuses pod = Some (VList l)
               /\ forallb is_record l = true.
Proof.
  unfold pod_records, container_statuses.
  destruct pod as [| | | | |p]; try discriminate. simpl.
  destruct (lookup "status" p) as [[| | | | |st]|]; try discriminate;
    [|now left].
  simpl. intros H. apply andb_prop in H as [H _].
  destruct (lookup "containerStatuses" st) as [[| | | |l|]|];
    try discriminate; [right; now exists l | now left].
Qed.

(** The classification of a pod with the layout of the data model, in the
    vocabulary of the rule. *)
Lemma classified_not_running_iff pod :
  pod_records pod = true ->
  classified_not_running pod = true
  <-> no_container_statuses pod \/ empty_container_statuses pod
      \/ some_container_not_ready pod \/ ~ has_ready_condition pod.
Proof.
  intros Hrec. unfold classified_not_running.
  rewrite <- some_container_not_ready_iff, <- has_ready_condition_iff.
  unfold no_container_statuses, empty_container_statuses.
  destruct (records_container_statuses pod Hrec) as [Hn | (l & Hl & _)].
  - rewrite Hn. split; auto.
  - rewrite Hl. destruct l as [|c l].
    + split; auto.
    + rewrite orb_true_iff, negb_true_iff. split.
      * intros [H | H]; [auto|]. right; right; right. now rewrite H.
      * intros [H | [H | [H | H]]]; try discriminate; auto.
        right. now apply not_true_is_false.
Qed.

Lemma well_shaped_records pod :
  pod_well_shaped pod = true -> pod_records pod = true.
Proof. unfold pod_well_shaped. intros H. now apply andb_prop in H. Qed.

Lemma not_running_pods_filter pods :
  Forall (fun pod => pod_well_shaped pod = true) pods ->
  not_running_pods (VList pods)
  = Ok (VList (filter classified_not_running pods)).
Proof.
  intros H. unfold not_running_pods. simpl.
  rewrite (py_filter_filter _ classified_not_running); [reflexivity|].
  intros pod Hin. apply pod_not_running_classified.
  rewrite Forall_forall in H. now apply H.
Qed.

Lemma py_filter_subsequence f l kept :
  py_filter f l = Ok kept -> subsequence kept l.
Proof.
  revert kept. induction l as [|x l IH]; simpl; intros kept H.
  - injection H as <-. constructor.
  - destruct (f x) as [b|e]; simpl in H; [|discriminate].
    destruct (py_filter f l) as [k|e]; simpl in H; [|discriminate].
    injection H as <-. destruct b; constructor; now apply IH.
Qed.

Lemma py_filter_raises f l e :
  py_filter f l = Raise e -> exists x, In x l /\ f x = Raise e.
Proof.
  induction l as [|x l IH]; simpl; intros H; [discriminate|].
  destruct (f x) as [b|e'] eqn:Hx; simpl in H.
  - destruct (py_filter f l) as [k|e']; simpl in H; [discriminate|].
    injection H as ->. destruct (IH eq_refl) as (y & Hy & Hfy).
    exists y. split; [now right | assumption].
  - injection H as ->. exists x. split; [now left | assumption].
Qed.

Lemma py_any_raises f l e :
  py_any f l = Raise e -> exists x, In x l /\ f x = Raise e.
Proof.
  induction l as [|x l IH]; simpl; intros H; [discriminate|].
  destruct (f x) as [b|e'] eqn:Hx; simpl in H.
  - destruct b; [discriminate|].
    destruct (IH H) as (y & Hy & Hfy). exists y. split; [now right | assumption].
  - injection H as ->. exists x. split; [now left | assumption].
Qed.

Lemma record_getitem_raises c k e :
  is_record c = true -> py_getitem c (VStr k) = Raise e ->
  e = KeyError (VStr k).
Proof.
  destruct c; simpl; try discriminate. intros _.
  destruct (lookup k d); [discriminate|]. now intros [= <-].
Qed.

Lemma pod_not_running_raises pod e :
  pod_records pod = true -> pod_not_running pod = Raise e ->
  exists k, e = KeyError (VStr k) /\ In k ["ready"; "type"; "status"].
Proof.
  unfold pod_records, pod_not_running.
  destruct pod as [| | | | |p]; try discriminate. simpl.
  destruct (lookup "status" p) as [[| | | | |st]|]; try discriminate.
  simpl. intros Hrec. apply andb_prop in Hrec as [Hrc Hrd].
  destruct (lookup "containerStatuses" st) as [[| | | |l|]|];
    try discriminate.
  destruct l as [|c l]; [discriminate|]. cbn [truthy negb py_iter bind].
  cbn [records_or_absent] in Hrc. rewrite forallb_forall in Hrc.
  destruct (py_any _ (c :: l)) as [b|e'] eqn:Hany; cbn [bind].
  - destruct b; [discriminate|].
    destruct (lookup "conditions" st) as [[| | | |dl|]|];
      try discriminate.
    cbn [py_iter bind]. cbn [records_or_absent] in Hrd.
    rewrite forallb_forall in Hrd.
    destruct (py_any _ dl) as [b|e'] eqn:Hcond; cbn [bind]; [discriminate|].
    intros [= ->]. apply py_any_raises in Hcond as (x & Hx & Hfx).
    specialize (Hrd x Hx).
    destruct (py_getitem x (VStr "type")) as [t|e'] eqn:Ht; cbn [bind] in Hfx.
    + destruct (py_eq t (VStr "Ready")); [|discriminate].
      destruct (py_getitem x (VStr "status")) as [s|e'] eqn:Hs;
        cbn [bind] in Hfx; [discriminate|].
      injection Hfx as ->. exists "status".
      split; [eapply record_getitem_raises; eauto | simpl; auto].
    + injection Hfx as ->. exists "type".
      split; [eapply record_getitem_raises; eauto | simpl; auto].
  - intros [= ->]. apply py_any_raises in Hany as (x & Hx & Hfx).
    specialize (Hrc x Hx).
    destruct (py_getitem x (VStr "ready")) as [r|e'] eqn:Hr;
      cbn [bind] in Hfx; [discriminate|].
    injection Hfx as ->. exists "ready".
    split; [eapply record_getitem_raises; eauto | simpl; auto].
Qed.

Lemma first_entry_without_ready pod c l :
  container_statuses pod = Some (VList (c :: l)) ->
  is_record c = true -> field "ready" c = None ->
  pod_not_running pod = Raise (KeyError (VStr "ready")).
Proof.
  unfold container_statuses, pod_not_running.
  destruct pod as [| | | | |p]; try discriminate. simpl.
  destruct (lookup "status" p) as [[| | | | |st]|]; try discriminate.
  simpl. intros ->. destruct c; try discriminate. simpl.
  intros _ ->. reflexivity.
Qed.

Lemma well_shaped_all pods :
  forallb pod_well_shaped pods = true ->
  Forall (fun pod => pod_well_shaped pod = true) pods.
Proof. intros H. apply Forall_forall. now apply forallb_forall. Qed.

Lemma py_filter_kept f l kept :
  py_filter f l = Ok kept ->
  forall x, In x kept <-> In x l /\ f x = Ok true.
Proof.
  revert kept. induction l as [|y l IH]; simpl; intros kept H x.
  - injection H as <-. simpl. tauto.
  - destruct (f y) as [b|e] eqn:Hy; simpl in H; [|discriminate].
    destruct (py_filter f l) as [k|e]; simpl in H; [|discriminate].
    injection H as <-. specialize (IH k eq_refl x).
    destruct b; simpl; rewrite IH; split.
    + intros [<- | [Hin Hx]]; auto.
    + intros [[<- | Hin] Hx]; auto.
    + intros [Hin Hx]; auto.
    + intros [[<- | Hin] Hx]; [congruence | auto].
Qed.

Lemma py_filter_evaluates f l kept :
  py_filter f l = Ok kept -> forall x, In x l -> exists b, f x = Ok b.
Proof.
  revert kept. induction l as [|y l IH]; simpl; intros kept H x Hin.
  - destruct Hin.
  - destruct (f y) as [b|e] eqn:Hy; simpl in H; [|discriminate].
    destruct (py_filter f l) as [k|e]; simpl in H; [|discriminate].
    destruct Hin as [<- | Hin]; [eauto | eapply IH; eauto].
Qed.

Lemma py_filter_all f l :
  (forall x, In x l -> f x = Ok true) -> py_filter f l = Ok l.
Proof.
  induction l as [|y l IH]; simpl; intros H; [reflexivity|].
  rewrite (H y (or_introl eq_refl)). cbn [bind].
  rewrite IH by auto. reflexivity.
Qed.

Lemma py_filter_none f l :
  (forall x, In x l -> f x = Ok false) -> py_filter f l = Ok [].
Proof.
  induction l as [|y l IH]; simpl; intros H; [reflexivity|].
  rewrite (H y (or_introl eq_refl)). cbn [bind].
  rewrite IH by auto. reflexivity.
Qed.

Lemma py_filter_app f a b :
  py_filter f (a ++ b)%list
  = (ka <- py_filter f a ;; kb <- py_filter f b ;; Ok (ka ++ kb)%list).
Proof.
  induction a as [|x a IH]; simpl.
  - destruct (py_filter f b); reflexivity.
  - destruct (f x) as [c|e]; cbn [bind]; [|reflexivity].
    rewrite IH. destruct (py_filter f a) as [ka|e]; cbn [bind]; [|reflexivity].
    destruct (py_filter f b) as [kb|e]; cbn [bind]; [|reflexivity].
    destruct c; reflexivity.
Qed.

Lemma not_running_pods_list pods r :
  not_running_pods (VList pods) = Ok r ->
  exists kept, r = VList kept /\ py_filter pod_not_running pods = Ok kept.
Proof.
  unfold not_running_pods. cbn [py_iter bind].
  destruct (py_filter pod_not_running pods) as [kept|e]; cbn [bind];
    [|discriminate].
  intros [= <-]. eauto.
Qed.

Lemma no_statuses_test pod :
  no_statuses_reported pod -> pod_not_running pod = Ok true.
Proof.
  intros (p & -> & H). unfold pod_not_running. cbn [py_get bind].
  destruct H as [-> | (st & -> & H)]; [reflexivity|].
  cbn [py_get bind].
  destruct H as [-> | (v & -> & ->)]; reflexivity.
Qed.

Lemma field_getitem k c x :
  field k c = Some x -> py_getitem c (VStr k) = Ok x.
Proof.
  destruct c; simpl; try discriminate. now intros ->.
Qed.

Lemma py_any_reaches f before c after :
  Forall (fun x => f x = Ok false) before -> f c = Ok true ->
  py_any f (before ++ c :: after)%list = Ok true.
Proof.
  intros Hb Hc. induction Hb as [|x before Hx _ IH]; simpl.
  - now rewrite Hc.
  - rewrite Hx. cbn [bind]. exact IH.
Qed.

Lemma py_any_false_iff f l :
  py_any f l = Ok false <-> Forall (fun x => f x = Ok false) l.
Proof.
  induction l as [|x l IH]; simpl.
  - split; [constructor | reflexivity].
  - destruct (f x) as [[|]|e] eqn:Hx; cbn [bind].
    + split; [discriminate | intros H; inversion H; congruence].
    + rewrite IH. split; [now constructor | intros H; now inversion H].
    + split; [discriminate | intros H; inversion H; congruence].
Qed.

Lemma py_any_raise_iff f l e :
  py_any f l = Raise e
  <-> exists before x after,
        l = (before ++ x :: after)%list
        /\ Forall (fun y => f y = Ok false) before /\ f x = Raise e.
Proof.
  induction l as [|x l IH]; simpl.
  - split; [discriminate|]. intros (before & y & after & H & _).
    destruct before; discriminate.
  - destruct (f x) as [[|]|e'] eqn:Hx; cbn [bind].
    + split; [discriminate|].
      intros ([|z before] & y & after & H & Hb & Hy); injection H as <- ->.
      * congruence.
      * inversion Hb; congruence.
    + rewrite IH. split.
      * intros (before & y & after & -> & Hb & Hy).
        exists (x :: before), y, after. repeat split; auto.
      * intros ([|z before] & y & after & H & Hb & Hy); injection H as <- ->.
        -- congruence.
        -- exists before, y, after. inversion Hb. auto.
    + split.
      * intros [= ->]. exists [], x, l. repeat split; auto.
      * intros ([|z before] & y & after & H & Hb & Hy); injection H as <- ->.
        -- congruence.
        -- inversion Hb; congruence.
Qed.

Lemma py_filter_raise_iff f l e :
  py_filter f l = Raise e
  <-> exists before x after,
        l = (before ++ x :: after)%list
        /\ Forall (fun y => exists b, f y = Ok b) before /\ f x = Raise e.
Proof.
  induction l as [|x l IH]; simpl.
  - split; [discriminate|]. intros (before & y & after & H & _).
    destruct before; discriminate.
  - destruct (f x) as [b|e'] eqn:Hx; cbn [bind].
    + destruct (py_filter f l) as [k|e''] eqn:Hf; cbn [bind].
      * split; [discriminate|].
        intros ([|z before] & y & after & H & Hb & Hy); injection H as <- ->.
        -- congruence.
        -- assert (Hk : @Ok (list value) k = Raise e); [|discriminate].
           apply IH. exists before, y, after. inversion Hb. auto.
      * split.
        -- intros [= ->]. destruct (proj1 IH eq_refl)
             as (before & y & after & Hl & Hb & Hy).
           exists (x :: before), y, after. subst l. repeat split; eauto.
        -- intros ([|z before] & y & after & H & Hb & Hy);
             injection H as <- ->; [congruence|].
           apply IH. exists before, y, after. inversion Hb. auto.
    + split.
      * intros [= ->]. exists [], x, l. repeat split; auto.
      * intros ([|z before] & y & after & H & Hb & Hy); injection H as <- ->.
        -- congruence.
        -- inversion Hb as [|? ? [b Hz] ?]; congruence.
Qed.

(** ** The Pod Health Classifier *)

(** C1, as the code has it.  On pods with the layout of the data model whose
    entries have their fields, [not_running_pods] returns the pods of the
    input for which one of these holds: there is no [containerStatuses], the
    [containerStatuses] sequence is empty, some container status has
    [ready] false, or no condition has type "Ready" and status "True". *)
Theorem not_running_pods_rule pods :
  forallb pod_well_shaped pods = true ->
  exists kept,
    not_running_pods (VList pods) = Ok (VList kept)
    /\ forall pod,
         In pod kept
         <-> In pod pods
             /\ (no_container_statuses pod \/ empty_container_statuses pod
                 \/ some_container_not_ready pod \/ ~ has_ready_condition pod).
Proof.
  intros Hws. exists (filter classified_not_running pods). split.
  - now apply not_running_pods_filter, well_shaped_all.
  - intros pod. rewrite filter_In. split; intros [Hin Hc]; split; auto.
    + apply classified_not_running_iff; auto.
      apply well_shaped_records. rewrite forallb_forall in Hws. auto.
    + apply classified_not_running_iff; auto.
      apply well_shaped_records. rewrite forallb_forall in Hws. auto.
Qed.

Lemma not_running_pods_rule_witness :
  forallb pod_well_shaped
    [pod_running; pod_crashing; pod_pending; pod_no_statuses_yet] = true
  /\ exists kept,
       not_running_pods
         (VList [pod_running; pod_crashing; pod_pending; pod_no_statuses_yet])
       = Ok (VList kept)
       /\ forall pod,
            In pod kept
            <-> In pod [pod_running; pod_crashing; pod_pending;
                        pod_no_statuses_yet]
                /\ (no_container_statuses pod \/ empty_container_statuses pod
                    \/ some_container_not_ready pod
                    \/ ~ has_ready_condition pod).
Proof.
  split; [reflexivity|].
  apply (not_running_pods_rule
           [pod_running; pod_crashing; pod_pending; pod_no_statuses_yet]).
  reflexivity.
Defined.

(** C1 as the rule is worded fails on a pod whose [containerStatuses] is
    present and empty: the pod is returned although it has a
    [containerStatuses] field, no container status with [ready] false, and
    a condition with type "Ready" and status "True". *)
Lemma rule_misses_empty_container_statuses :
  not_running_pods (VList [pod_no_statuses_yet])
  = Ok (VList [pod_no_statuses_yet])
  /\ ~ spec_not_running pod_no_statuses_yet.
Proof.
  split; [reflexivity|].
  intros [H | [H | H]].
  - discriminate H.
  - destruct H as (l & c & Hl & Hc & _).
    injection Hl as <-. destruct Hc.
  - apply H. exists [ready_condition], ready_condition.
    repeat split. now left.
Qed.

Lemma ready_pod_test pod :
  all_containers_ready pod -> ~ empty_container_statuses pod ->
  has_ready_condition pod ->
  pod_not_running pod <> Ok true.
Proof.
  intros (l & Hcs & Hall) Hne (dl & d & Hcd & Hd & Ht & Hs).
  unfold container_statuses in Hcs. unfold conditions in Hcd.
  unfold pod_not_running.
  destruct pod as [| | | | |p]; try discriminate. simpl in Hcs, Hcd.
  cbn [py_get bind py_getitem].
  destruct (lookup "status" p) as [[| | | | |st]|] eqn:Hst; try discriminate.
  simpl in Hcs, Hcd. cbn [py_get bind py_getitem]. rewrite Hcs, Hcd.
  destruct l as [|c l].
  { exfalso. apply Hne. unfold empty_container_statuses, container_statuses.
    simpl. rewrite Hst. exact Hcs. }
  cbn [truthy negb py_iter bind].
  assert (Hc : py_any (fun container =>
                         ready <- py_getitem container (VStr "ready") ;;
                         Ok (is_False ready)) (c :: l) = Ok false).
  { apply py_any_false_iff, Forall_forall. intros x Hx.
    now rewrite (field_getitem _ _ _ (Hall x Hx)). }
  rewrite Hc. cbn [bind].
  match goal with |- context [py_any ?f dl] =>
    destruct (py_any f dl) as [[|]|e] eqn:Hany end;
    cbn [bind negb]; try discriminate.
  apply py_any_false_iff in Hany. rewrite Forall_forall in Hany.
  specialize (Hany d Hd). cbn beta in Hany.
  rewrite (field_getitem _ _ _ Ht) in Hany. cbn in Hany.
  rewrite (field_getitem _ _ _ Hs) in Hany. discriminate.
Qed.

(** C8, as the code has it.  A pod with a non-empty [containerStatuses]
    sequence whose entries all have [ready] true, and with a condition of
    type "Ready" and status "True", is in no result of the classifier; a pod
    whose [containerStatuses] sequence is empty is in every result for a
    list that holds it; and on well shaped pods there is a result. *)
Theorem ready_pods_excluded pods :
  (forallb pod_well_shaped pods = true ->
   exists kept, not_running_pods (VList pods) = Ok (VList kept))
  /\ (forall kept,
        not_running_pods (VList pods) = Ok (VList kept) ->
        (forall pod,
           all_containers_ready pod -> ~ empty_container_statuses pod ->
           has_ready_condition pod -> ~ In pod kept)
        /\ (forall pod,
              In pod pods -> empty_container_statuses pod -> In pod kept)).
Proof.
  split.
  { intros Hws. eexists. now apply not_running_pods_filter, well_shaped_all. }
  intros kept H.
  destruct (not_running_pods_list pods _ H) as (k & Hk & Hf).
  injection Hk as <-. split.
  - intros pod Hall Hne Hready Hin.
    apply (py_filter_kept _ _ _ Hf) in Hin as [_ Ht].
    now apply (ready_pod_test pod Hall Hne Hready).
  - intros pod Hin He. apply (py_filter_kept _ _ _ Hf). split; [exact Hin|].
    apply no_statuses_test.
    unfold empty_container_statuses, container_statuses in He.
    destruct pod as [| | | | |p]; try discriminate. simpl in He.
    exists p. split; [reflexivity|].
    destruct (lookup "status" p) as [[| | | | |st]|]; try discriminate.
    right. exists st. split; [reflexivity|]. simpl in He.
    right. exists (VList []). split; [exact He | reflexivity].
Qed.

Lemma ready_pods_excluded_witness :
  exists kept,
    not_running_pods (VList [pod_running; pod_scheduled_only])
    = Ok (VList kept)
    /\ ~ In pod_running kept /\ In pod_scheduled_only kept.
Proof.
  destruct (ready_pods_excluded [pod_running; pod_scheduled_only])
    as [Hret Hres].
  destruct (Hret eq_refl) as (kept & Hk). exists kept.
  destruct (Hres kept Hk) as [Hout Hin]. split; [exact Hk|]. split.
  - apply Hout.
    + exists [container true]. split; [reflexivity|].
      intros c [<- | []]. reflexivity.
    + discriminate.
    + exists [ready_condition], ready_condition. repeat split. now left.
  - apply Hin; [right; now left | reflexivity].
Defined.

(** C8 as worded fails when the [containerStatuses] sequence is empty: every
    container status of the pod has [ready] true (there is none) and the pod
    has a "Ready"/"True" condition, yet the pod is returned. *)
Lemma empty_container_statuses_not_excluded :
  all_containers_ready pod_scheduled_only
  /\ has_ready_condition pod_scheduled_only
  /\ not_running_pods (VList [pod_running; pod_scheduled_only])
     = Ok (VList [pod_scheduled_only]).
Proof.
  split; [|split].
  - exists []. split; [reflexivity|]. intros c [].
  - exists [ready_condition; ready_condition], ready_condition.
    repeat split. now left.
  - reflexivity.
Qed.

(** C9.  [not_running_pods] is a filter: whatever it returns is the input
    sequence with some pods left out, the others in their order and as they
    were; and it does return on well shaped pods.  The function reads its
    argument and builds a new list: the values here are immutable, as the
    source treats them. *)
Theorem not_running_pods_subsequence pods :
  (forallb pod_well_shaped pods = true ->
   exists kept, not_running_pods (VList pods) = Ok (VList kept))
  /\ (forall r,
        not_running_pods (VList pods) = Ok r ->
        exists kept, r = VList kept /\ subsequence kept pods).
Proof.
  split.
  - intros Hws. eexists. now apply not_running_pods_filter, well_shaped_all.
  - unfold not_running_pods. simpl. intros r H.
    destruct (py_filter pod_not_running pods) as [kept|e] eqn:Hf;
      simpl in H; [|discriminate].
    injection H as <-. exists kept. split; [reflexivity|].
    now apply py_filter_subsequence with (f := pod_not_running).
Qed.

Lemma not_running_pods_subsequence_witness :
  exists kept,
    not_running_pods (VList [pod_crashing; pod_running; pod_pending])
    = Ok (VList kept)
    /\ subsequence kept [pod_crashing; pod_running; pod_pending].
Proof.
  destruct (not_running_pods_subsequence
              [pod_crashing; pod_running; pod_pending]) as [Hret Hsub].
  destruct (Hret eq_refl) as (kept & Hk).
  exists kept. split; [exact Hk|].
  destruct (Hsub _ Hk) as (kept' & Heq & Hs).
  injection Heq as ->. exact Hs.
Defined.

Lemma container_test_false c :
  (ready <- py_getitem c (VStr "ready") ;; Ok (is_False ready)) = Ok false
  <-> ready_not_False c.
Proof.
  unfold ready_not_False, field.
  destruct c as [| | | | |d]; simpl;
    try (split; [discriminate | intros (r & H & _); discriminate]).
  destruct (lookup "ready" d) as [r|]; cbn [bind].
  - split.
    + intros [= H]. now exists r.
    + intros (r' & [= <-] & ->). reflexivity.
  - split; [discriminate | intros (r & H & _); discriminate].
Qed.

Lemma container_test_raises c e :
  is_record c = true ->
  (ready <- py_getitem c (VStr "ready") ;; Ok (is_False ready)) = Raise e
  <-> field "ready" c = None /\ e = KeyError (VStr "ready").
Proof.
  destruct c as [| | | | |d]; try discriminate. intros _. simpl.
  destruct (lookup "ready" d) as [r|]; cbn [bind].
  - split; [discriminate | intros [H _]; discriminate].
  - split; [intros [= <-]; auto | intros [_ ->]; reflexivity].
Qed.

Lemma condition_test_false d :
  (type <- py_getitem d (VStr "type") ;;
   if py_eq type (VStr "Ready")
   then status <- py_getitem d (VStr "status") ;; Ok (py_eq status (VStr "True"))
   else Ok false) = Ok false
  <-> condition_not_ready d.
Proof.
  unfold condition_not_ready, field.
  destruct d as [| | | | |d]; simpl;
    try (split; [discriminate | intros (t & H & _); discriminate]).
  destruct (lookup "type" d) as [t|]; cbn [bind];
    [|split; [discriminate | intros (t & H & _); discriminate]].
  destruct (py_eq t (VStr "Ready")) eqn:Ht.
  - destruct (lookup "status" d) as [s|]; cbn [bind].
    + split.
      * intros [= H]. exists t. split; [reflexivity|]. right. now exists s.
      * intros (t' & [= <-] & [H | (s' & [= <-] & H)]); congruence.
    + split; [discriminate|].
      intros (t' & [= <-] & [H | (s' & H & _)]); congruence.
  - split; [|reflexivity]. intros _. exists t. auto.
Qed.

Lemma condition_test_raises d e :
  is_record d = true ->
  (type <- py_getitem d (VStr "type") ;;
   if py_eq type (VStr "Ready")
   then status <- py_getitem d (VStr "status") ;; Ok (py_eq status (VStr "True"))
   else Ok false) = Raise e
  <-> (field "type" d = None /\ e = KeyError (VStr "type"))
      \/ (field "type" d = Some (VStr "Ready") /\ field "status" d = None
          /\ e = KeyError (VStr "status")).
Proof.
  destruct d as [| | | | |d]; try discriminate. intros _. simpl.
  destruct (lookup "type" d) as [t|]; cbn [bind].
  - destruct (py_eq t (VStr "Ready")) eqn:Ht.
    + apply py_eq_str in Ht. subst t.
      destruct (lookup "status" d) as [s|]; cbn [bind].
      * split; [discriminate|].
        intros [[H _] | (_ & H & _)]; discriminate.
      * split.
        -- intros [= <-]. right. auto.
        -- intros [[H _] | (_ & _ & ->)]; [discriminate | reflexivity].
    + split; [discriminate|].
      intros [[H _] | (H & _)]; [discriminate|].
      injection H as ->. discriminate.
  - split.
    + intros [= <-]. left. auto.
    + intros [[_ ->] | (H & _)]; [reflexivity | discriminate].
Qed.

Lemma Forall_iff_in {A} (P Q : A -> Prop) l :
  (forall x, In x l -> (P x <-> Q x)) -> Forall P l <-> Forall Q l.
Proof.
  intros H. rewrite !Forall_forall. split; intros HF x Hx; apply H; auto.
Qed.

Lemma pod_not_running_raise_iff pod e :
  pod_records pod = true ->
  pod_not_running pod = Raise e
  <-> exists k, e = KeyError (VStr k) /\ lookup_failure pod k.
Proof.
  unfold pod_records, lookup_failure, missing_ready_reached,
    missing_type_reached, missing_status_reached, containers_pass,
    container_statuses, conditions, pod_not_running.
  destruct pod as [| | | | |p]; try discriminate.
  cbn [field py_get bind py_getitem].
  destruct (lookup "status" p) as [[| | | | |st]|]; try discriminate.
  2:{ intros _. split; [discriminate|].
      intros (k & _ & [(_ & b & c & a & H & _)
                      | [(_ & (c & l & H & _) & _)
                        | (_ & (c & l & H & _) & _)]]); discriminate. }
  cbn [field py_get bind py_getitem].
  intros Hrec. apply andb_prop in Hrec as [Hrc Hrd].
  destruct (lookup "containerStatuses" st) as [[| | | |l|]|];
    try discriminate.
  2:{ split; [discriminate|].
      intros (k & _ & [(_ & b & c & a & H & _)
                      | [(_ & (c & l & H & _) & _)
                        | (_ & (c & l & H & _) & _)]]); discriminate. }
  destruct l as [|c0 l0].
  { split; [discriminate|].
    intros (k & _ & [(_ & b & c & a & H & _)
                    | [(_ & (c & l & H & _) & _)
                      | (_ & (c & l & H & _) & _)]]);
      try discriminate.
    injection H as H. destruct b; discriminate. }
  cbn [truthy negb py_iter bind].
  cbn [records_or_absent] in Hrc. rewrite forallb_forall in Hrc.
  set (fc := fun container : value =>
               ready <- py_getitem container (VStr "ready") ;;
               Ok (is_False ready)).
  set (fd := fun condition : value =>
               type <- py_getitem condition (VStr "type") ;;
               if py_eq type (VStr "Ready")
               then status <- py_getitem condition (VStr "status") ;;
                    Ok (py_eq status (VStr "True"))
               else Ok false).
  assert (Hpass : py_any fc (c0 :: l0) = Ok false
                  <-> Forall ready_not_False (c0 :: l0)).
  { rewrite py_any_false_iff. apply Forall_iff_in.
    intros x _. apply container_test_false. }
  split.
  - destruct (py_any fc (c0 :: l0)) as [[|]|e'] eqn:Hany; cbn [bind].
    + discriminate.
    + assert (Hcp : Forall ready_not_False (c0 :: l0)) by now apply Hpass.
      destruct (lookup "conditions" st) as [[| | | |dl|]|];
        try discriminate.
      cbn [py_iter bind]. cbn [records_or_absent] in Hrd.
      rewrite forallb_forall in Hrd.
      destruct (py_any fd dl) as [b|e'] eqn:Hcond; cbn [bind];
        [discriminate|].
      intros [= ->].
      apply py_any_raise_iff in Hcond
        as (before & d & after & -> & Hb & Hd).
      assert (Hbn : Forall condition_not_ready before).
      { eapply Forall_impl; [|exact Hb].
        intros x Hx. now apply condition_test_false. }
      apply condition_test_raises in Hd;
        [|apply Hrd, in_or_app; right; now left].
      destruct Hd as [[Ht ->] | (Ht & Hs & ->)].
      * exists "type". split; [reflexivity|]. right; left.
        split; [reflexivity|]. split; [now exists c0, l0|].
        now exists before, d, after.
      * exists "status". split; [reflexivity|]. right; right.
        split; [reflexivity|]. split; [now exists c0, l0|].
        now exists before, d, after.
    + intros [= ->].
      apply py_any_raise_iff in Hany
        as (before & c & after & Hl & Hb & Hc).
      apply container_test_raises in Hc;
        [|apply Hrc; rewrite Hl; apply in_or_app; right; now left].
      destruct Hc as [Hc ->].
      exists "ready". split; [reflexivity|]. left. split; [reflexivity|].
      exists before, c, after. rewrite Hl. split; [reflexivity|].
      split; [|exact Hc].
      eapply Forall_impl; [|exact Hb].
      intros x Hx. now apply container_test_false.
  - intros (k & -> & [(-> & before & c & after & Hl & Hb & Hc)
                     | [(-> & (c & l & Hl & Hcp) & before & d & after
                            & Hd & Hb & Ht)
                       | (-> & (c & l & Hl & Hcp) & before & d & after
                             & Hd & Hb & Ht & Hs)]]).
    + injection Hl as Hl.
      assert (Hr : py_any fc (c0 :: l0) = Raise (KeyError (VStr "ready"))).
      { apply py_any_raise_iff. exists before, c, after.
        split; [exact Hl|]. split.
        - eapply Forall_impl; [|exact Hb].
          intros x Hx. now apply container_test_false.
        - apply container_test_raises; [|auto].
          apply Hrc. rewrite Hl. apply in_or_app. right. now left. }
      now rewrite Hr.
    + injection Hl as <- <-. rewrite (proj2 Hpass Hcp). cbn [bind].
      rewrite Hd in *. cbn [py_iter bind].
      cbn [records_or_absent] in Hrd. rewrite forallb_forall in Hrd.
      assert (Hr : py_any fd (before ++ d :: after)
                   = Raise (KeyError (VStr "type"))).
      { apply py_any_raise_iff. exists before, d, after.
        split; [reflexivity|]. split.
        - eapply Forall_impl; [|exact Hb].
          intros x Hx. now apply condition_test_false.
        - apply condition_test_raises; [|auto].
          apply Hrd, in_or_app. right. now left. }
      now rewrite Hr.
    + injection Hl as <- <-. rewrite (proj2 Hpass Hcp). cbn [bind].
      rewrite Hd in *. cbn [py_iter bind].
      cbn [records_or_absent] in Hrd. rewrite forallb_forall in Hrd.
      assert (Hr : py_any fd (before ++ d :: after)
                   = Raise (KeyError (VStr "status"))).
      { apply py_any_raise_iff. exists before, d, after.
        split; [reflexivity|]. split.
        - eapply Forall_impl; [|exact Hb].
          intros x Hx. now apply condition_test_false.
        - apply condition_test_raises; [|auto].
          apply Hrd, in_or_app. right. now left. }
      now rewrite Hr.
Qed.

(** C10, as the code has it.  On pods with the layout of the data model:
    when every [containerStatuses] entry has ['ready'] and every
    [conditions] entry has ['type'] and ['status'], a result is returned;
    a failure is a lookup error on one of these three fields, and then some
    entry lacks its field; the classifier fails exactly when, in the first
    pod where this happens, the evaluation comes to an entry without the
    field it looks up: a [containerStatuses] entry without ['ready'] with no
    [ready] false before it, or, the container statuses not deciding, a
    [conditions] entry without ['type'], or of type "Ready" without
    ['status'], with no "Ready"/"True" entry before it. *)
Theorem not_running_pods_lookup_errors pods :
  forallb pod_records pods = true ->
  (forallb pod_fields pods = true ->
   exists kept, not_running_pods (VList pods) = Ok (VList kept))
  /\ (forall e,
        not_running_pods (VList pods) = Raise e ->
        (exists k, e = KeyError (VStr k) /\ In k ["ready"; "type"; "status"])
        /\ forallb pod_fields pods = false)
  /\ (forall e,
        not_running_pods (VList pods) = Raise e
        <-> exists before pod after k,
              pods = (before ++ pod :: after)%list
              /\ Forall (fun p => forall k', ~ lookup_failure p k') before
              /\ lookup_failure pod k
              /\ e = KeyError (VStr k))
  /\ (forall pod rest c l,
        pods = pod :: rest ->
        container_statuses pod = Some (VList (c :: l)) ->
        field "ready" c = None ->
        not_running_pods (VList pods) = Raise (KeyError (VStr "ready"))).
Proof.
  intros Hrec.
  assert (Hok : forallb pod_fields pods = true ->
                exists kept, not_running_pods (VList pods) = Ok (VList kept)).
  { intros Hf. eexists. apply not_running_pods_filter.
    apply Forall_forall. intros pod Hin. unfold pod_well_shaped.
    rewrite forallb_forall in Hrec, Hf. now rewrite Hrec, Hf. }
  split; [exact Hok|]. split; [|split].
  - intros e He. split.
    + unfold not_running_pods in He. simpl in He.
      destruct (py_filter pod_not_running pods) as [k|e'] eqn:Hf;
        simpl in He; [discriminate|].
      injection He as ->. apply py_filter_raises in Hf as (pod & Hin & Hp).
      rewrite forallb_forall in Hrec.
      apply (pod_not_running_raises pod); auto.
    + destruct (forallb pod_fields pods) eqn:Hf; [|reflexivity].
      destruct (Hok eq_refl) as (kept & Hk). congruence.
  - intros e. rewrite forallb_forall in Hrec.
    assert (Hlist : not_running_pods (VList pods) = Raise e
                    <-> py_filter pod_not_running pods = Raise e).
    { unfold not_running_pods. cbn [py_iter bind].
      destruct (py_filter pod_not_running pods); cbn [bind];
        split; congruence. }
    rewrite Hlist, py_filter_raise_iff. split.
    + intros (before & pod & after & Hl & Hb & Hp).
      assert (Hin : forall x, In x (before ++ pod :: after)%list -> In x pods)
        by (intros x Hx; now rewrite Hl).
      apply pod_not_running_raise_iff in Hp as (k & -> & Hk);
        [|apply Hrec, Hin, in_or_app; right; now left].
      exists before, pod, after, k. repeat split; auto.
      apply Forall_forall. intros x Hx k' Hk'.
      rewrite Forall_forall in Hb. destruct (Hb x Hx) as (b & Hxb).
      assert (Hr : pod_not_running x = Raise (KeyError (VStr k'))).
      { apply pod_not_running_raise_iff; [|eauto].
        apply Hrec, Hin, in_or_app. now left. }
      congruence.
    + intros (before & pod & after & k & Hl & Hb & Hk & ->).
      assert (Hin : forall x, In x (before ++ pod :: after)%list -> In x pods)
        by (intros x Hx; now rewrite Hl).
      exists before, pod, after. split; [exact Hl|]. split.
      * apply Forall_forall. intros x Hx. rewrite Forall_forall in Hb.
        destruct (pod_not_running x) as [b|e'] eqn:Hxe; [eauto|].
        apply pod_not_running_raise_iff in Hxe as (k' & _ & Hk');
          [|apply Hrec, Hin, in_or_app; now left].
        now destruct (Hb x Hx k').
      * apply pod_not_running_raise_iff; [|eauto].
        apply Hrec, Hin, in_or_app. right. now left.
  - intros pod rest c l -> Hcs Hr.
    simpl in Hrec. apply andb_prop in Hrec as [Hp _].
    assert (Hc : is_record c = true).
    { destruct (records_container_statuses pod Hp) as [Hn | (l' & Hl & Hall)];
        [congruence|].
      rewrite Hcs in Hl. injection Hl as <-. simpl in Hall.
      now apply andb_prop in Hall. }
    unfold not_running_pods. simpl.
    now rewrite (first_entry_without_ready pod c l Hcs Hc Hr).
Qed.

Lemma not_running_pods_lookup_errors_witness :
  (exists kept,
     not_running_pods (VList [pod_running; pod_pending]) = Ok (VList kept))
  /\ not_running_pods (VList [pod_blank_status; pod_running])
     = Raise (KeyError (VStr "ready"))
  /\ not_running_pods (VList [pod_blank_condition])
     = Raise (KeyError (VStr "type"))
  /\ not_running_pods (VList [pod_ready_without_status])
     = Raise (KeyError (VStr "status")).
Proof.
  split; [|split; [|split]].
  - apply (not_running_pods_lookup_errors [pod_running; pod_pending]);
      reflexivity.
  - apply (proj2 (proj2 (proj2
             (not_running_pods_lookup_errors [pod_blank_status; pod_running]
                eq_refl))))
      with (pod := pod_blank_status) (rest := [pod_running])
           (c := VDict []) (l := []); reflexivity.
  - apply (proj1 (proj2 (proj2
             (not_running_pods_lookup_errors [pod_blank_condition] eq_refl)))).
    exists [], pod_blank_condition, [], "type".
    split; [reflexivity|]. split; [constructor|]. split; [|reflexivity].
    right; left. split; [reflexivity|]. split.
    + exists (container true), []. split; [reflexivity|].
      repeat constructor. exists (VBool true). split; reflexivity.
    + exists [], (VDict []), [ready_condition].
      split; [reflexivity|]. split; [constructor | reflexivity].
  - apply (proj1 (proj2 (proj2
             (not_running_pods_lookup_errors [pod_ready_without_status]
                eq_refl)))).
    exists [], pod_ready_without_status, [], "status".
    split; [reflexivity|]. split; [constructor|]. split; [|reflexivity].
    right; right. split; [reflexivity|]. split.
    + exists (container true), []. split; [reflexivity|].
      repeat constructor. exists (VBool true). split; reflexivity.
    + exists [VDict [("type", VStr "Initialized")]],
        (VDict [("type", VStr "Ready")]), [].
      split; [reflexivity|]. split; [|split; reflexivity].
      repeat constructor. exists (VStr "Initialized").
      split; [reflexivity | now left].
Defined.

(** C10 as worded fails: an entry without ['ready'] after a container status
    with [ready] false is never looked at, and the pod is classified. *)
Lemma missing_ready_not_always_an_error :
  container_statuses pod_unready_then_blank
  = Some (VList [container false; VDict []])
  /\ field "ready" (VDict []) = None
  /\ pod_records pod_unready_then_blank = true
  /\ not_running_pods (VList [pod_unready_then_blank])
     = Ok (VList [pod_unready_then_blank]).
Proof. repeat split. Qed.

(** ** The Node Eligibility Filter *)

Lemma resolved_masters_truthy m : truthy (resolved_masters m) = true.
Proof.
  unfold resolved_masters, py_or. destruct (truthy m) eqn:H; auto.
Qed.

Lemma is_first_master_eval tv h m :
  get_var tv ["ansible_ssh_host"] None = Ok h ->
  get_var tv ["groups"; "masters"] (Some VNone) = Ok m ->
  is_first_master tv
  = (first <- py_getitem (resolved_masters m) (VInt 0) ;;
     Ok (VBool (py_eq first (resolved_hostname h)))).
Proof.
  intros Hh Hm. unfold is_first_master. rewrite Hh. cbn [bind].
  rewrite Hm. cbn [bind].
  fold (resolved_masters m). fold (resolved_hostname h).
  now rewrite resolved_masters_truthy.
Qed.

Lemma is_first_master_bool tv v :
  is_first_master tv = Ok v -> exists b, v = VBool b.
Proof.
  unfold is_first_master.
  destruct (get_var tv ["ansible_ssh_host"] None) as [h|]; [|discriminate].
  cbn [bind].
  destruct (get_var tv ["groups"; "masters"] (Some VNone)) as [m|];
    [|discriminate].
  cbn [bind]. fold (resolved_masters m).
  rewrite resolved_masters_truthy.
  destruct (py_getitem (resolved_masters m) (VInt 0)); [|discriminate].
  cbn [bind]. intros [= <-]. eauto.
Qed.

(** C5.  Once the host address and the list of masters are resolved,
    [is_first_master] returns [True] exactly when the list is truthy and has
    a first element equal to the host address; on a list it
    returns the outcome of that comparison. *)
Theorem is_first_master_iff tv h m :
  get_var tv ["ansible_ssh_host"] None = Ok h ->
  get_var tv ["groups"; "masters"] (Some VNone) = Ok m ->
  (is_first_master tv = Ok (VBool true)
   <-> truthy (resolved_masters m) = true
       /\ exists first,
            py_getitem (resolved_masters m) (VInt 0) = Ok first
            /\ py_eq first (resolved_hostname h) = true)
  /\ (forall l,
        resolved_masters m = VList l ->
        exists first rest,
          l = first :: rest
          /\ is_first_master tv
             = Ok (VBool (py_eq first (resolved_hostname h)))).
Proof.
  intros Hh Hm. rewrite (is_first_master_eval tv h m Hh Hm). split.
  - split.
    + intros H. split; [apply resolved_masters_truthy|].
      destruct (py_getitem (resolved_masters m) (VInt 0)) as [first|];
        [|discriminate].
      cbn [bind] in H. injection H as H. now exists first.
    + intros (_ & first & Hf & He). rewrite Hf. cbn [bind]. now rewrite He.
  - intros l Hl. pose proof (resolved_masters_truthy m) as Ht.
    rewrite Hl in *. destruct l as [|first rest]; [discriminate|].
    exists first, rest. split; reflexivity.
Qed.

Lemma is_first_master_iff_witness :
  is_first_master tv_first_master = Ok (VBool true)
  /\ is_first_master tv_second_master = Ok (VBool false).
Proof.
  split.
  - apply (is_first_master_iff tv_first_master (VStr "master1")
             (VList [VStr "master1"; VStr "master2"]) eq_refl eq_refl).
    split; [reflexivity|]. exists (VStr "master1"). split; reflexivity.
  - destruct (is_first_master_iff tv_second_master (VStr "master2")
                (VList [VStr "master1"; VStr "master2"]) eq_refl eq_refl)
      as [_ H].
    destruct (H _ eq_refl) as (first & rest & Hl & Hr).
    injection Hl as <- <-. exact Hr.
Defined.

(** C6, as the code has it.  When the host address and the list of masters
    both resolve to their fallback, [is_first_master] returns [False]: the
    first element of the list fallback is the null placeholder, and it is
    compared with the host fallback, which is a one-element sequence. *)
Theorem fallbacks_are_not_first_master tv h m :
  get_var tv ["ansible_ssh_host"] None = Ok h -> truthy h = false ->
  get_var tv ["groups"; "masters"] (Some VNone) = Ok m -> truthy m = false ->
  resolved_hostname h = VList [VNone]
  /\ resolved_masters m = VList [VNone]
  /\ is_first_master tv = Ok (VBool false).
Proof.
  intros Hh Hth Hm Htm.
  assert (Eh : resolved_hostname h = VList [VNone])
    by (unfold resolved_hostname, py_or; now rewrite Hth).
  assert (Em : resolved_masters m = VList [VNone])
    by (unfold resolved_masters, py_or; now rewrite Htm).
  repeat split; auto.
  rewrite (is_first_master_eval tv h m Hh Hm), Eh, Em. reflexivity.
Qed.

Lemma fallbacks_are_not_first_master_witness :
  resolved_hostname VNone = VList [VNone]
  /\ resolved_masters VNone = VList [VNone]
  /\ is_first_master tv_null_host = Ok (VBool false).
Proof.
  apply (fallbacks_are_not_first_master tv_null_host VNone VNone);
    reflexivity.
Defined.

(** C6 as worded fails: with a null host address and no group of masters
    both values are their fallbacks, and the filter does not return
    [True]. *)
Lemma null_fallbacks_not_equal :
  get_var tv_null_host ["ansible_ssh_host"] None = Ok VNone
  /\ get_var tv_null_host ["groups"; "masters"] (Some VNone) = Ok VNone
  /\ resolved_hostname VNone = VList [VNone]
  /\ resolved_masters VNone = VList [VNone]
  /\ is_first_master tv_null_host <> Ok (VBool true).
Proof. repeat split. discriminate. Qed.

(** With no host address at all the resolver raises, and so does the
    filter. *)
Example is_first_master_without_host :
  is_first_master (VDict [])
  = Raise (OpenShiftCheckException "'ansible_ssh_host' is undefined").
Proof. reflexivity. Qed.

(** ** The Activation Gate *)

(** C7, as the code has it.  When the flag
    [openshift_hosted_logging_deploy] is unset (the resolver gives the
    default [False]) or [False] and the base predicate returns a boolean:
    [is_active] returns [False] whenever the node filter returns, whatever
    it returns, and whenever the base predicate is false; the flag is the
    last operand, so when the base predicate is true and the node filter
    raises, [is_active] raises the same exception. *)
Theorem is_active_needs_flag (super_is_active : value -> result value)
    tv b :
  get_var tv ["openshift_hosted_logging_deploy"] (Some (VBool false))
  = Ok (VBool false) ->
  super_is_active tv = Ok (VBool b) ->
  (forall first,
     is_first_master tv = Ok first ->
     is_active super_is_active tv = Ok (VBool false))
  /\ (forall e,
        is_first_master tv = Raise e ->
        is_active super_is_active tv
        = if b then Raise e else Ok (VBool false)).
Proof.
  intros Hflag Hbase. unfold is_active.
  rewrite Hflag, Hbase. cbn [bind truthy]. split.
  - intros first Hfirst. destruct b; cbn [negb]; [|reflexivity].
    rewrite Hfirst. cbn [bind].
    destruct (is_first_master_bool tv first Hfirst) as ([|] & ->); reflexivity.
  - intros e Hfirst. destruct b; cbn [negb]; [|reflexivity].
    now rewrite Hfirst.
Qed.

Lemma is_active_needs_flag_witness :
  is_first_master tv_flag_off = Ok (VBool true)
  /\ is_active base_always_active tv_flag_off = Ok (VBool false).
Proof.
  split; [reflexivity|].
  apply (proj1 (is_active_needs_flag base_always_active tv_flag_off true
                  eq_refl eq_refl) (VBool true)).
  reflexivity.
Defined.

(** C7 as worded fails: with the flag set to [False], or unset, and an
    active base check, [is_active] does not return [False] in a context
    where the node filter raises; it raises. *)
Lemma flag_off_does_not_stop_node_filter :
  get_var tv_flag_false_masters_by_name ["openshift_hosted_logging_deploy"]
    (Some (VBool false)) = Ok (VBool false)
  /\ is_active base_always_active tv_flag_false_masters_by_name
     = Raise (KeyError (VInt 0))
  /\ get_var (VDict []) ["openshift_hosted_logging_deploy"]
       (Some (VBool false)) = Ok (VBool false)
  /\ is_active base_always_active (VDict [])
     = Raise (OpenShiftCheckException "'ansible_ssh_host' is undefined").
Proof. repeat split. Qed.

Example is_active_on_first_master :
  is_active base_always_active tv_first_master = Ok (VBool true).
Proof. reflexivity. Qed.

(** ** The transport wrapper and its error translation *)

Lemma prefix_append s t : prefix s (s ++ t) = true.
Proof.
  induction s as [|a s IH]; simpl.
  - destruct t; reflexivity.
  - destruct (ascii_dec a a); [exact IH | contradiction].
Qed.

Lemma is_infix_step needle text :
  is_infix needle text
  = prefix needle text
    || match text with
       | EmptyString => false
       | String _ rest => is_infix needle rest
       end.
Proof. destruct text; reflexivity. Qed.

Lemma is_infix_complete needle text :
  occurs_in needle text -> is_infix needle text = true.
Proof.
  intros (before & after & ->).
  induction before as [|a before IH].
  - cbn [append]. now rewrite is_infix_step, prefix_append.
  - cbn [append]. rewrite is_infix_step, IH. apply orb_true_r.
Qed.

Lemma append_empty_r s : s ++ "" = s.
Proof. induction s; simpl; congruence. Qed.

Lemma append_assoc s t u : (s ++ t) ++ u = s ++ t ++ u.
Proof. induction s; simpl; congruence. Qed.

Lemma occurs_in_suffix before text : occurs_in text (before ++ text).
Proof. exists before, "". now rewrite append_empty_r. Qed.

Lemma not_infix needle text :
  is_infix needle text = false -> ~ occurs_in needle text.
Proof.
  intros H Ho. apply is_infix_complete in Ho. congruence.
Qed.

(** [exec_oc] once the configuration directory is resolved and the executor
    has answered with a record [r]. *)
Lemma exec_oc_eval execute_module ns cmd xs tv base r :
  get_var tv ["openshift"; "common"; "config_base"] None = Ok (VStr base) ->
  oc_call execute_module ns base cmd xs tv = Ok (VDict r) ->
  exec_oc execute_module ns cmd (VList xs) tv
  = if failed_flag r then
      match lookup "result" r with
      | Some error =>
          Raise (OpenShiftCheckException
                   (if py_eq error (VStr no_such_file) then missing_oc_msg
                    else unexpected_error_msg cmd error))
      | None => Raise (KeyError (VStr "result"))
      end
    else Ok (match lookup "result" r with
             | Some out => out
             | None => VStr ""
             end).
Proof.
  intros Hbase Hcall. unfold exec_oc. rewrite Hbase.
  cbn [bind os_path_join].
  assert (Hx : (if truthy (VList xs)
                then l <- py_iter (VList xs) ;; Ok (VList l)
                else Ok (VList []))
               = Ok (VList xs)) by (destruct xs; reflexivity).
  rewrite Hx. cbn [bind]. unfold oc_call in Hcall. rewrite Hcall.
  cbn [bind py_get]. unfold failed_flag.
  destruct (lookup "failed" r) as [f|]; cbn [truthy].
  - destruct (truthy f); [|reflexivity].
    cbn. destruct (lookup "result" r); reflexivity.
  - reflexivity.
Qed.

(** The part of C3 that holds: when the result has its [result] field,
    [exec_oc] raises the check exception exactly when the [failed] flag is
    true, and returns the field otherwise (the empty string when the flag is
    not true and the field is absent). *)
Lemma exec_oc_raises_iff_failed execute_module ns cmd xs tv base r :
  get_var tv ["openshift"; "common"; "config_base"] None = Ok (VStr base) ->
  oc_call execute_module ns base cmd xs tv = Ok (VDict r) ->
  (failed_flag r = false ->
   exec_oc execute_module ns cmd (VList xs) tv
   = Ok (match lookup "result" r with Some out => out | None => VStr "" end))
  /\ (failed_flag r = true -> lookup "result" r <> None ->
      exists msg,
        exec_oc execute_module ns cmd (VList xs) tv
        = Raise (OpenShiftCheckException msg)).
Proof.
  intros Hbase Hcall.
  rewrite (exec_oc_eval _ _ _ _ _ _ _ Hbase Hcall). split; intros ->.
  - reflexivity.
  - destruct (lookup "result" r); [eauto | contradiction].
Qed.

(** C3, where the code departs from it.  The executor reports a failure
    without a [result] field, as Ansible does when the module itself could
    not run; [exec_oc] raises a [KeyError], not the check exception. *)
Theorem exec_oc_failed_without_result :
  exec_oc module_failure (VStr "logging") (get_pods_cmd "es") (VList [])
    tv_first_master
  = Raise (KeyError (VStr "result")).
Proof. reflexivity. Qed.

(** C4.  When the [failed] flag is true and the error text is [err]: if
    [err] is the "no such file" message of the platform, the exception
    carries the message about the missing [oc] command, which has none of the
    lines of the generic diagnosis; otherwise it carries the generic
    diagnosis, in which the command string and [err] occur. *)
Theorem exec_oc_failure_message execute_module ns cmd xs tv base r err :
  get_var tv ["openshift"; "common"; "config_base"] None = Ok (VStr base) ->
  oc_call execute_module ns base (VStr cmd) xs tv = Ok (VDict r) ->
  failed_flag r = true ->
  lookup "result" r = Some (VStr err) ->
  (err = "[Errno 2] No such file or directory" ->
   exec_oc execute_module ns (VStr cmd) (VList xs) tv
   = Raise (OpenShiftCheckException missing_oc_msg)
   /\ occurs_in "does not have the `oc` command where expected" missing_oc_msg
   /\ occurs_in "Has an installation been run on this host yet?" missing_oc_msg
   /\ ~ occurs_in "Unexpected error" missing_oc_msg
   /\ ~ occurs_in "Error executing" missing_oc_msg)
  /\ (err <> "[Errno 2] No such file or directory" ->
      exists msg,
        exec_oc execute_module ns (VStr cmd) (VList xs) tv
        = Raise (OpenShiftCheckException msg)
        /\ msg = "Unexpected error using `oc` to validate the logging stack components."
                 ++ nl ++ "Error executing `oc " ++ cmd ++ "`:" ++ nl ++ err
        /\ occurs_in cmd msg /\ occurs_in err msg).
Proof.
  intros Hbase Hcall Hfailed Hres.
  rewrite (exec_oc_eval _ _ _ _ _ _ _ Hbase Hcall), Hfailed, Hres.
  split.
  - intros ->. repeat split.
    + exists "This host is supposed to be a master but ".
      exists ("." ++ nl ++ "Has an installation been run on this host yet?").
      reflexivity.
    + apply (occurs_in_suffix
               ("This host is supposed to be a master but does not have the `oc` command where expected."
                ++ nl)).
    + apply not_infix. reflexivity.
    + apply not_infix. reflexivity.
  - intros Hne. eexists. split; [|split; [reflexivity|split]].
    + replace (py_eq (VStr err) (VStr no_such_file)) with false; [reflexivity|].
      symmetry. simpl. now apply String.eqb_neq.
    + exists ("Unexpected error using `oc` to validate the logging stack components."
              ++ nl ++ "Error executing `oc ").
      exists ("`:" ++ nl ++ err). reflexivity.
    + rewrite <- !append_assoc. apply occurs_in_suffix.
Qed.

Lemma exec_oc_failure_message_witness :
  exec_oc oc_missing (VStr "logging") (VStr "get pods") (VList [])
    tv_first_master
  = Raise (OpenShiftCheckException missing_oc_msg)
  /\ exists msg,
       exec_oc oc_denied (VStr "logging") (VStr "get pods") (VList [])
         tv_first_master
       = Raise (OpenShiftCheckException msg)
       /\ occurs_in "get pods" msg /\ occurs_in "permission denied" msg.
Proof.
  split.
  - apply (exec_oc_failure_message oc_missing (VStr "logging") "get pods" []
             tv_first_master "/etc/origin"
             [("failed", VBool true); ("result", VStr no_such_file)]
             no_such_file eq_refl eq_refl eq_refl eq_refl).
    reflexivity.
  - destruct (exec_oc_failure_message oc_denied (VStr "logging") "get pods" []
                tv_first_master "/etc/origin"
                [("failed", VBool true); ("result", VStr "permission denied")]
                "permission denied" eq_refl eq_refl eq_refl eq_refl)
      as [_ H].
    destruct H as (msg & Hm & _ & Hc & He); [discriminate|].
    exists msg. auto.
Defined.

(** ** The Control-Plane Query Adapter *)

(** C2.  When the transport succeeds with output [out]: if [out] is not
    JSON, or is JSON for a falsy value, or for an object whose ["items"] is
    missing or empty, the outcome is no pods and the message naming the
    component; if it is JSON for an object with a non-empty ["items"]
    sequence, the outcome is that sequence and no message. *)
Theorem get_pods_for_component_outcomes
    (json_loads : value -> result value) (execute_module : executor)
    ns label tv out :
  exec_oc execute_module ns (get_pods_cmd label) (VList []) tv = Ok out ->
  (json_loads out = Raise ValueError
   \/ (exists v, json_loads out = Ok v /\ truthy v = false)
   \/ (exists d,
         json_loads out = Ok (VDict d)
         /\ (lookup "items" d = None
             \/ exists items,
                  lookup "items" d = Some items /\ truthy items = false)) ->
   get_pods_for_component json_loads execute_module ns (VStr label) tv
   = Ok (VNone,
         VStr ("No pods were found for the " ++ dquote ++ label ++ dquote
               ++ " logging component.")))
  /\ (forall d pod pods,
        json_loads out = Ok (VDict d) ->
        lookup "items" d = Some (VList (pod :: pods)) ->
        get_pods_for_component json_loads execute_module ns (VStr label) tv
        = Ok (VList (pod :: pods), VNone)).
Proof.
  intros Hout. unfold get_pods_for_component.
  change (VStr ("get pods -l component=" ++ py_str (VStr label) ++ " -o json"))
    with (get_pods_cmd label).
  rewrite Hout. cbn [bind]. split.
  - intros [H | [(v & H & Hv) | (d & H & Hd)]]; rewrite H; cbn [bind].
    + reflexivity.
    + rewrite Hv. reflexivity.
    + destruct (truthy (VDict d)); cbn [negb bind py_get]; [|reflexivity].
      destruct Hd as [-> | (items & -> & ->)]; reflexivity.
  - intros d pod pods H Hitems. rewrite H. cbn [bind].
    assert (Ht : truthy (VDict d) = true)
      by (destruct d; [discriminate | reflexivity]).
    rewrite Ht. cbn [negb bind py_get]. rewrite Hitems. simpl.
    now rewrite Hitems.
Qed.

Lemma get_pods_for_component_outcomes_witness :
  get_pods_for_component json_loads_sample (oc_prints json_no_items)
    (VStr "logging") (VStr "X") tv_first_master
  = Ok (VNone,
        VStr ("No pods were found for the " ++ dquote ++ "X" ++ dquote
              ++ " logging component."))
  /\ get_pods_for_component json_loads_sample (oc_prints json_one_pod)
       (VStr "logging") (VStr "X") tv_first_master
     = Ok (VList [VDict []], VNone).
Proof.
  split.
  - apply (get_pods_for_component_outcomes json_loads_sample
             (oc_prints json_no_items) (VStr "logging") "X" tv_first_master
             (VStr json_no_items) eq_refl).
    right; right. exists [("items", VList [])]. split; [reflexivity|].
    right. exists (VList []). split; reflexivity.
  - apply (proj2 (get_pods_for_component_outcomes json_loads_sample
                      (oc_prints json_one_pod) (VStr "logging") "X"
                      tv_first_master (VStr json_one_pod) eq_refl)
             [("items", VList [VDict []])]);
      reflexivity.
Defined.

Example get_pods_text_not_json :
  get_pods_for_component json_loads_sample (oc_prints "No resources found.")
    (VStr "logging") (VStr "kibana") tv_first_master
  = Ok (VNone, VStr (no_pods_msg (VStr "kibana"))).
Proof. reflexivity. Qed.

(** ** Further properties of the classifier *)

(** X1.  Classifying the result again changes nothing: the pods that were
    returned are all returned again. *)
Theorem not_running_pods_idempotent pods r :
  not_running_pods (VList pods) = Ok r ->
  not_running_pods r = Ok r.
Proof.
  intros H. destruct (not_running_pods_list pods r H) as (kept & -> & Hf).
  unfold not_running_pods. cbn [py_iter bind].
  rewrite py_filter_all; [reflexivity|].
  intros x Hx. now apply (py_filter_kept _ _ _ Hf).
Qed.

Lemma not_running_pods_idempotent_witness :
  not_running_pods (VList [pod_crashing; pod_pending])
  = Ok (VList [pod_crashing; pod_pending]).
Proof.
  apply (not_running_pods_idempotent
           [pod_running; pod_crashing; pod_running; pod_pending]).
  reflexivity.
Defined.

(** X2.  The classifier works through a concatenation part by part: the
    result for [a ++ b] is the result for [a] followed by the result for
    [b]; an error in [a] is the error of the whole, and so is an error in
    [b] when [a] has none. *)
Theorem not_running_pods_app a b :
  (forall ka kb,
     not_running_pods (VList a) = Ok (VList ka) ->
     not_running_pods (VList b) = Ok (VList kb) ->
     not_running_pods (VList (a ++ b)%list) = Ok (VList (ka ++ kb)%list))
  /\ (forall e,
        not_running_pods (VList a) = Raise e ->
        not_running_pods (VList (a ++ b)%list) = Raise e)
  /\ (forall ka e,
        not_running_pods (VList a) = Ok ka ->
        not_running_pods (VList b) = Raise e ->
        not_running_pods (VList (a ++ b)%list) = Raise e).
Proof.
  unfold not_running_pods. cbn [py_iter bind]. rewrite py_filter_app.
  destruct (py_filter pod_not_running a) as [ka'|ea]; cbn [bind];
    destruct (py_filter pod_not_running b) as [kb'|eb]; cbn [bind];
    repeat split; intros; try discriminate; congruence.
Qed.

Lemma not_running_pods_app_witness :
  not_running_pods
    (VList ([pod_crashing; pod_running] ++ [pod_pending; pod_running])%list)
  = Ok (VList ([pod_crashing] ++ [pod_pending])%list)
  /\ not_running_pods (VList ([pod_running] ++ [pod_blank_status])%list)
     = Raise (KeyError (VStr "ready")).
Proof.
  split.
  - apply (not_running_pods_app [pod_crashing; pod_running]
             [pod_pending; pod_running]); reflexivity.
  - apply (proj2 (proj2 (not_running_pods_app [pod_running]
                           [pod_blank_status])) (VList [])); reflexivity.
Defined.

(** X3.  Each pod is judged on its own: when the classifier returns, the
    test of every pod of the input came out without an error, and a pod is
    in the result exactly when it is in the input and its own test is true,
    whatever the other pods are. *)
Theorem not_running_pods_pointwise pods kept :
  not_running_pods (VList pods) = Ok (VList kept) ->
  (forall pod, In pod pods -> exists b, pod_not_running pod = Ok b)
  /\ (forall pod,
        In pod kept <-> In pod pods /\ pod_not_running pod = Ok true).
Proof.
  intros H. destruct (not_running_pods_list pods _ H) as (k & Hk & Hf).
  injection Hk as <-. split.
  - now apply (py_filter_evaluates _ _ _ Hf).
  - now apply py_filter_kept.
Qed.

Lemma not_running_pods_pointwise_witness :
  (forall pod,
     In pod [pod_running; pod_unready_then_blank] ->
     exists b, pod_not_running pod = Ok b)
  /\ (forall pod,
        In pod [pod_unready_then_blank]
        <-> In pod [pod_running; pod_unready_then_blank]
            /\ pod_not_running pod = Ok true).
Proof.
  apply (not_running_pods_pointwise [pod_running; pod_unready_then_blank]
           [pod_unready_then_blank]).
  reflexivity.
Defined.

(** X4.  A pod that reports no container status ([status] or
    [containerStatuses] missing, or [containerStatuses] null or empty) is
    returned whatever else it holds: its conditions are not looked at.  A
    list of such pods is returned whole. *)
Theorem pods_without_statuses_all_returned pods :
  Forall no_statuses_reported pods ->
  not_running_pods (VList pods) = Ok (VList pods).
Proof.
  intros H. unfold not_running_pods. cbn [py_iter bind].
  rewrite py_filter_all; [reflexivity|].
  intros pod Hin. apply no_statuses_test.
  rewrite Forall_forall in H. auto.
Qed.

Lemma pods_without_statuses_all_returned_witness :
  not_running_pods (VList [pod_pending; pod_null_statuses; VDict []])
  = Ok (VList [pod_pending; pod_null_statuses; VDict []]).
Proof.
  apply (pods_without_statuses_all_returned
           [pod_pending; pod_null_statuses; VDict []]).
  repeat constructor.
  - exists [("status", VDict [])]. split; [reflexivity|].
    right. exists []. split; [reflexivity | now left].
  - eexists. split; [reflexivity|].
    right. eexists. split; [reflexivity|].
    right. exists VNone. split; reflexivity.
  - exists []. split; [reflexivity | now left].
Defined.

Lemma unready_container_test pod :
  unready_container_reached pod -> pod_not_running pod = Ok true.
Proof.
  intros (before & c & after & Hcs & Hb & Hc).
  unfold container_statuses in Hcs. unfold pod_not_running.
  destruct pod as [| | | | |p]; try discriminate. simpl in Hcs.
  cbn [py_get bind py_getitem].
  destruct (lookup "status" p) as [[| | | | |st]|]; try discriminate.
  simpl in Hcs. cbn [py_get bind py_getitem]. rewrite Hcs.
  assert (Ht : truthy (VList (before ++ c :: after)%list) = true)
    by (destruct before; reflexivity).
  rewrite Ht. cbn [negb py_iter bind].
  rewrite py_any_reaches; [reflexivity| |].
  - eapply Forall_impl; [|exact Hb].
    intros x (r & Hr & Hf). now rewrite (field_getitem _ _ _ Hr), <- Hf.
  - now rewrite (field_getitem _ _ _ Hc).
Qed.

(** X5.  Once a container status with [ready] false is reached (the entries
    before it having a ['ready'] field), the pod is returned: the entries
    after it and the conditions of the pod are not looked at, whatever they
    are.  A list of such pods is returned whole. *)
Theorem pods_with_unready_container_all_returned pods :
  Forall unready_container_reached pods ->
  not_running_pods (VList pods) = Ok (VList pods).
Proof.
  intros H. unfold not_running_pods. cbn [py_iter bind].
  rewrite py_filter_all; [reflexivity|].
  intros pod Hin. apply unready_container_test.
  rewrite Forall_forall in H. auto.
Qed.

Lemma pods_with_unready_container_all_returned_witness :
  not_running_pods (VList [pod_unready_odd_rest; pod_crashing])
  = Ok (VList [pod_unready_odd_rest; pod_crashing]).
Proof.
  apply (pods_with_unready_container_all_returned
           [pod_unready_odd_rest; pod_crashing]).
  repeat constructor.
  - exists [container true], (container false), [VInt 3].
    split; [reflexivity|]. split; [|reflexivity].
    repeat constructor. exists (VBool true). split; reflexivity.
  - exists [container true], (container false), [].
    split; [reflexivity|]. split; [|reflexivity].
    repeat constructor. exists (VBool true). split; reflexivity.
Defined.

Lemma container_unready_false pod c l :
  no_container_is_False pod ->
  container_statuses pod = Some (VList (c :: l)) ->
  seq_exists container_unready (container_statuses pod) = false.
Proof.
  intros (c' & l' & Hcs & Hall) Hl. rewrite Hl in *.
  injection Hcs as <- <-. cbn [seq_exists].
  apply not_true_is_false. intros H.
  apply existsb_exists in H as (x & Hx & Hu).
  apply container_unready_iff in Hu. now apply (Hall x Hx).
Qed.

(** X6.  The test of a container status is [ready is False]: a value of
    ['ready'] other than [False] (null, 0, a string) counts as ready.  Well
    shaped pods with a non-empty [containerStatuses] none of whose entries
    has [ready] equal to [False], and with a "Ready"/"True" condition, are
    all left out. *)
Theorem pods_without_False_all_left_out pods :
  forallb pod_well_shaped pods = true ->
  Forall no_container_is_False pods ->
  Forall has_ready_condition pods ->
  not_running_pods (VList pods) = Ok (VList []).
Proof.
  intros Hws Hnf Hrc. unfold not_running_pods. cbn [py_iter bind].
  rewrite py_filter_none; [reflexivity|].
  intros pod Hin. rewrite forallb_forall in Hws.
  rewrite Forall_forall in Hnf, Hrc.
  rewrite (pod_not_running_classified pod (Hws pod Hin)). f_equal.
  unfold classified_not_running.
  pose proof (Hnf pod Hin) as Hn. destruct Hn as (c & l & Hcs & Hall).
  rewrite (container_unready_false pod c l (Hnf pod Hin) Hcs).
  rewrite Hcs. cbn [orb].
  apply negb_false_iff. apply has_ready_condition_iff. auto.
Qed.

Lemma pods_without_False_all_left_out_witness :
  not_running_pods (VList [pod_null_ready; pod_running]) = Ok (VList []).
Proof.
  apply (pods_without_False_all_left_out [pod_null_ready; pod_running]).
  - reflexivity.
  - repeat constructor.
    + eexists. eexists. split; [reflexivity|].
      intros x [<- | [<- | []]]; discriminate.
    + eexists. eexists. split; [reflexivity|].
      intros x [<- | []]; discriminate.
  - repeat constructor;
      (exists [ready_condition], ready_condition;
       repeat split; now left).
Defined.

(** The argument is iterated as it is: handed the parsed object instead
    of its ["items"] sequence, the classifier meets the keys of the object,
    which are text, and fails with an [AttributeError]; handed [None], a
    boolean or a number, it fails with a [TypeError]. *)
Theorem not_running_pods_wrong_argument :
  (forall k v rest,
     not_running_pods (VDict ((k, v) :: rest)) = Raise AttributeError)
  /\ not_running_pods VNone = Raise TypeError
  /\ (forall b, not_running_pods (VBool b) = Raise TypeError)
  /\ (forall n, not_running_pods (VInt n) = Raise TypeError).
Proof. repeat split. Qed.

(** ** Further properties of the node filter and of the gate *)

(** X7.  Whenever [is_first_master] returns, it returns a boolean, as its
    docstring says: the list of masters is never falsy once the fallback is
    in place, so the [and] always goes on to the comparison. *)
Theorem is_first_master_returns_bool tv v :
  is_first_master tv = Ok v -> v = VBool true \/ v = VBool false.
Proof.
  intros H. destruct (is_first_master_bool tv v H) as ([|] & ->); auto.
Qed.

Lemma is_first_master_returns_bool_witness :
  is_first_master tv_second_master = Ok (VBool false)
  /\ (VBool false = VBool true \/ VBool false = VBool false).
Proof.
  split; [reflexivity|].
  apply (is_first_master_returns_bool tv_second_master). reflexivity.
Defined.

Lemma py_eq_None v : py_eq VNone v = true -> v = VNone.
Proof. destruct v; simpl; intros H; try discriminate; reflexivity. Qed.

(** X8.  With no masters (the group unset, null or empty) no host is the
    first master: the filter returns [False] whatever the host address
    is. *)
Theorem no_masters_no_first_master tv h m :
  get_var tv ["ansible_ssh_host"] None = Ok h ->
  get_var tv ["groups"; "masters"] (Some VNone) = Ok m ->
  truthy m = false ->
  is_first_master tv = Ok (VBool false).
Proof.
  intros Hh Hm Htm.
  assert (He : py_eq VNone (resolved_hostname h) = false).
  { destruct (py_eq VNone (resolved_hostname h)) eqn:He; [|reflexivity].
    apply py_eq_None in He. unfold resolved_hostname, py_or in He.
    destruct (truthy h) eqn:Hth; [|discriminate]. subst h. discriminate. }
  rewrite (is_first_master_eval tv h m Hh Hm).
  unfold resolved_masters, py_or. rewrite Htm.
  change (py_getitem (VList [VNone]) (VInt 0)) with (Ok VNone).
  cbn [bind]. now rewrite He.
Qed.

Lemma no_masters_no_first_master_witness :
  is_first_master tv_no_masters = Ok (VBool false).
Proof.
  apply (no_masters_no_first_master tv_no_masters (VStr "master1") (VList []));
    reflexivity.
Defined.

(** X9.  A host whose address is falsy (null, empty) is not the first
    master of a cluster whose first master is named by a string. *)
Theorem no_address_not_first_master tv h name rest :
  get_var tv ["ansible_ssh_host"] None = Ok h ->
  truthy h = false ->
  get_var tv ["groups"; "masters"] (Some VNone)
  = Ok (VList (VStr name :: rest)) ->
  is_first_master tv = Ok (VBool false).
Proof.
  intros Hh Hth Hm. rewrite (is_first_master_eval tv h _ Hh Hm).
  unfold resolved_hostname, py_or. rewrite Hth. reflexivity.
Qed.

Lemma no_address_not_first_master_witness :
  is_first_master
    (VDict [("ansible_ssh_host", VStr "");
            ("groups", VDict [("masters", VList [VStr ""; VStr "master2"])])])
  = Ok (VBool false).
Proof.
  apply (no_address_not_first_master _ (VStr "") "" [VStr "master2"]);
    reflexivity.
Defined.

(** X10.  When the three operands of the gate evaluate, [is_active] returns
    a value that is truthy exactly when the base predicate, the node filter
    and the flag all are. *)
Theorem is_active_truth (super_is_active : value -> result value)
    tv base first flag :
  get_var tv ["openshift_hosted_logging_deploy"] (Some (VBool false))
  = Ok flag ->
  super_is_active tv = Ok base ->
  is_first_master tv = Ok first ->
  exists r,
    is_active super_is_active tv = Ok r
    /\ truthy r = truthy base && truthy first && truthy flag.
Proof.
  intros Hflag Hbase Hfirst. unfold is_active.
  rewrite Hflag, Hbase. cbn [bind].
  destruct (truthy base) eqn:Hb; cbn [negb].
  - rewrite Hfirst. cbn [bind].
    destruct (truthy first) eqn:Hf; cbn [negb]; eexists; split;
      try reflexivity; simpl; auto.
  - eexists. split; [reflexivity|]. now rewrite Hb.
Qed.

Lemma is_active_truth_witness :
  exists r,
    is_active base_always_active tv_flag_text = Ok r
    /\ truthy r = truthy (VBool true) && truthy (VBool true)
                  && truthy (VStr "yes").
Proof.
  apply (is_active_truth base_always_active tv_flag_text); reflexivity.
Defined.

(** X11.  On the first master of an active base check, [is_active] returns
    the flag as it is set, not a boolean made from it. *)
Theorem is_active_returns_flag (super_is_active : value -> result value)
    tv base flag :
  get_var tv ["openshift_hosted_logging_deploy"] (Some (VBool false))
  = Ok flag ->
  super_is_active tv = Ok base -> truthy base = true ->
  is_first_master tv = Ok (VBool true) ->
  is_active super_is_active tv = Ok flag.
Proof.
  intros Hflag Hbase Hb Hfirst. unfold is_active.
  rewrite Hflag, Hbase. cbn [bind]. rewrite Hb. cbn [negb].
  rewrite Hfirst. reflexivity.
Qed.

Lemma is_active_returns_flag_witness :
  is_active base_always_active tv_flag_text = Ok (VStr "yes").
Proof.
  apply (is_active_returns_flag base_always_active tv_flag_text (VBool true));
    reflexivity.
Defined.

(** X12.  When the base predicate is falsy the node filter is not
    evaluated: [is_active] returns what the base predicate returned, also
    in a context where the node filter raises. *)
Theorem is_active_base_first (super_is_active : value -> result value)
    tv base flag :
  get_var tv ["openshift_hosted_logging_deploy"] (Some (VBool false))
  = Ok flag ->
  super_is_active tv = Ok base -> truthy base = false ->
  is_active super_is_active tv = Ok base.
Proof.
  intros Hflag Hbase Hb. unfold is_active.
  rewrite Hflag, Hbase. cbn [bind]. now rewrite Hb.
Qed.

Lemma is_active_base_first_witness :
  is_first_master tv_masters_by_name = Raise (KeyError (VInt 0))
  /\ is_active base_never_active tv_masters_by_name = Ok (VBool false).
Proof.
  split; [reflexivity|].
  apply (is_active_base_first base_never_active tv_masters_by_name
           (VBool false) (VBool false)); reflexivity.
Defined.

(** X13.  The flag is the last operand: switching it off does not keep the
    node filter from running.  When the base predicate is truthy and the
    node filter raises, [is_active] raises the same exception, whatever the
    flag is. *)
Theorem is_active_filter_error (super_is_active : value -> result value)
    tv base flag e :
  get_var tv ["openshift_hosted_logging_deploy"] (Some (VBool false))
  = Ok flag ->
  super_is_active tv = Ok base -> truthy base = true ->
  is_first_master tv = Raise e ->
  is_active super_is_active tv = Raise e.
Proof.
  intros Hflag Hbase Hb Hfirst. unfold is_active.
  rewrite Hflag, Hbase. cbn [bind]. rewrite Hb. cbn [negb].
  now rewrite Hfirst.
Qed.

Lemma is_active_filter_error_witness :
  is_active base_always_active tv_masters_by_name = Raise (KeyError (VInt 0)).
Proof.
  apply (is_active_filter_error base_always_active tv_masters_by_name
           (VBool true) (VBool false)); reflexivity.
Defined.

(** ** Further properties of the transport wrapper *)

Lemma list_extra_args xs :
  (if truthy (VList xs)
   then l <- py_iter (VList xs) ;; Ok (VList l)
   else Ok (VList []))
  = Ok (VList xs).
Proof. destruct xs; reflexivity. Qed.

(** X14.  Once the configuration directory is resolved and the executor has
    answered with a record, the outcome of [exec_oc] is decided by the truth
    of [failed] and the presence of [result]: not failed gives the [result]
    field as it is, or the empty string without one; failed with a [result]
    raises the check exception; failed without a [result] raises a
    [KeyError]. *)
Theorem exec_oc_outcomes execute_module ns cmd xs tv base r :
  get_var tv ["openshift"; "common"; "config_base"] None = Ok (VStr base) ->
  oc_call execute_module ns base cmd xs tv = Ok (VDict r) ->
  (failed_flag r = false ->
   (forall out, lookup "result" r = Some out ->
                exec_oc execute_module ns cmd (VList xs) tv = Ok out)
   /\ (lookup "result" r = None ->
       exec_oc execute_module ns cmd (VList xs) tv = Ok (VStr "")))
  /\ (failed_flag r = true ->
      (forall error, lookup "result" r = Some error ->
                     exists msg,
                       exec_oc execute_module ns cmd (VList xs) tv
                       = Raise (OpenShiftCheckException msg))
      /\ (lookup "result" r = None ->
          exec_oc execute_module ns cmd (VList xs) tv
          = Raise (KeyError (VStr "result")))).
Proof.
  intros Hbase Hcall.
  rewrite (exec_oc_eval _ _ _ _ _ _ _ Hbase Hcall).
  split; intros ->; split.
  - now intros out ->.
  - now intros ->.
  - intros error ->. eauto.
  - now intros ->.
Qed.

Lemma exec_oc_outcomes_witness :
  exec_oc (oc_prints "{}") (VStr "logging") (VStr "get pods") (VList [])
    tv_first_master = Ok (VStr "{}")
  /\ exec_oc (answer [("changed", VBool false)]) (VStr "logging")
       (VStr "get pods") (VList []) tv_first_master = Ok (VStr "")
  /\ exec_oc module_failure (VStr "logging") (VStr "get pods") (VList [])
       tv_first_master = Raise (KeyError (VStr "result")).
Proof.
  split; [|split].
  - apply (exec_oc_outcomes (oc_prints "{}") (VStr "logging") (VStr "get pods")
             [] tv_first_master "/etc/origin"
             [("failed", VBool false); ("result", VStr "{}")]
             eq_refl eq_refl); reflexivity.
  - apply (exec_oc_outcomes (answer [("changed", VBool false)])
             (VStr "logging") (VStr "get pods")
             [] tv_first_master "/etc/origin" [("changed", VBool false)]
             eq_refl eq_refl); reflexivity.
  - apply (exec_oc_outcomes module_failure (VStr "logging") (VStr "get pods")
             [] tv_first_master "/etc/origin"
             [("failed", VBool true); ("msg", VStr "MODULE FAILURE")]
             eq_refl eq_refl); reflexivity.
Defined.

(** X15.  The extra arguments reach the executor as a list: a falsy value
    ([None], an empty sequence) as the empty list, a sequence as its items
    (a string as its characters), and a truthy value that cannot be
    iterated makes [exec_oc] fail with a [TypeError] before the executor is
    called. *)
Theorem exec_oc_extra_args execute_module ns cmd extra tv :
  (truthy extra = false ->
   exec_oc execute_module ns cmd extra tv
   = exec_oc execute_module ns cmd (VList []) tv)
  /\ (forall l,
        truthy extra = true -> py_iter extra = Ok l ->
        exec_oc execute_module ns cmd extra tv
        = exec_oc execute_module ns cmd (VList l) tv)
  /\ (forall base e,
        get_var tv ["openshift"; "common"; "config_base"] None
        = Ok (VStr base) ->
        truthy extra = true -> py_iter extra = Raise e ->
        e = TypeError
        /\ exec_oc execute_module ns cmd extra tv = Raise TypeError).
Proof.
  unfold exec_oc.
  destruct (get_var tv ["openshift"; "common"; "config_base"] None)
    as [cb|e0]; cbn [bind].
  2:{ repeat split; try reflexivity; intros; discriminate. }
  destruct (os_path_join cb ["master"; "admin.kubeconfig"]) as [cf|e1] eqn:Hj;
    cbn [bind].
  2:{ repeat split;
        match goal with H : Ok _ = Ok _ |- _ => injection H as -> end;
        discriminate. }
  split; [|split].
  - intros ->. reflexivity.
  - intros l -> ->. cbn [bind]. now rewrite list_extra_args.
  - intros base e _ -> He.
    assert (e = TypeError) as ->
      by (destruct extra; simpl in He; congruence).
    rewrite He. split; reflexivity.
Qed.

Lemma exec_oc_extra_args_witness :
  exec_oc oc_echo (VStr "logging") (VStr "get pods") VNone tv_first_master
  = exec_oc oc_echo (VStr "logging") (VStr "get pods") (VList []) tv_first_master
  /\ exec_oc oc_echo (VStr "logging") (VStr "get pods") (VStr "-w")
       tv_first_master
     = Ok (oc_args (VStr "logging") "/etc/origin/master/admin.kubeconfig"
             (VStr "get pods") (VList [VStr "-"; VStr "w"]))
  /\ exec_oc oc_echo (VStr "logging") (VStr "get pods") (VInt 5)
       tv_first_master
     = Raise TypeError.
Proof.
  split; [|split].
  - apply (proj1 (exec_oc_extra_args oc_echo (VStr "logging")
                    (VStr "get pods") VNone tv_first_master)).
    reflexivity.
  - rewrite (proj1 (proj2 (exec_oc_extra_args oc_echo (VStr "logging")
                             (VStr "get pods") (VStr "-w") tv_first_master))
               [VStr "-"; VStr "w"] eq_refl eq_refl).
    reflexivity.
  - apply (proj2 (proj2 (exec_oc_extra_args oc_echo (VStr "logging")
                           (VStr "get pods") (VInt 5) tv_first_master))
             "/etc/origin" TypeError eq_refl eq_refl eq_refl).
Defined.

(** X16.  [exec_oc] reaches the executor through one call, of the module
    [ocutil], with the arguments [namespace], [config_file] (the file
    [master/admin.kubeconfig] of the configuration directory), [cmd] and
    [extra_args], no [tmp] and the context: for every executor, the outcome
    is what the rest of the function makes of the answer to this call.  An
    exception of the call is the outcome, an answer that only has a
    [result] is returned as that [result], and executors that answer the
    call alike give the same outcome. *)
Theorem exec_oc_one_call ns cmd xs tv base :
  get_var tv ["openshift"; "common"; "config_base"] None = Ok (VStr base) ->
  exists rest : value -> result value,
    (forall em : executor,
       exec_oc em ns cmd (VList xs) tv
       = (answer <-
            em "ocutil"
               (VDict [("namespace", ns);
                       ("config_file",
                        VStr (posix_join base ["master"; "admin.kubeconfig"]));
                       ("cmd", cmd);
                       ("extra_args", VList xs)])
               VNone tv ;;
          rest answer))
    /\ (forall out, rest (VDict [("result", out)]) = Ok out)
    /\ (forall em em' : executor,
          em "ocutil"
             (VDict [("namespace", ns);
                     ("config_file",
                      VStr (posix_join base ["master"; "admin.kubeconfig"]));
                     ("cmd", cmd);
                     ("extra_args", VList xs)])
             VNone tv
          = em' "ocutil"
              (VDict [("namespace", ns);
                      ("config_file",
                       VStr (posix_join base ["master"; "admin.kubeconfig"]));
                      ("cmd", cmd);
                      ("extra_args", VList xs)])
              VNone tv ->
          exec_oc em ns cmd (VList xs) tv = exec_oc em' ns cmd (VList xs) tv).
Proof.
  intros Hbase.
  assert (Hcall : forall em : executor,
            exec_oc em ns cmd (VList xs) tv
            = (answer <-
                 em "ocutil"
                    (oc_args ns (posix_join base ["master"; "admin.kubeconfig"])
                       cmd (VList xs))
                    VNone tv ;;
               (fun result =>
                  failed <- py_get result "failed" VNone ;;
                  if truthy failed then
                    c <- py_getitem
                           (oc_args ns
                              (posix_join base ["master"; "admin.kubeconfig"])
                              cmd (VList xs)) (VStr "cmd") ;;
                    error <- py_getitem result (VStr "result") ;;
                    error' <- py_getitem result (VStr "result") ;;
                    Raise (OpenShiftCheckException
                             (if py_eq error' (VStr no_such_file)
                              then missing_oc_msg
                              else unexpected_error_msg c error))
                  else py_get result "result" (VStr "")) answer)).
  { intros em. unfold exec_oc. rewrite Hbase. cbn [bind os_path_join].
    rewrite list_extra_args. cbn [bind]. reflexivity. }
  eexists. split; [exact Hcall|]. split.
  - intros out. reflexivity.
  - intros em em' H. rewrite !Hcall. unfold oc_args. now rewrite H.
Qed.

Lemma exec_oc_one_call_witness :
  exec_oc oc_echo (VStr "logging") (VStr "get pods") (VList [VStr "-w"])
    tv_first_master
  = Ok (VDict [("namespace", VStr "logging");
               ("config_file", VStr "/etc/origin/master/admin.kubeconfig");
               ("cmd", VStr "get pods");
               ("extra_args", VList [VStr "-w"])])
  /\ exec_oc oc_unreachable (VStr "logging") (VStr "get pods")
       (VList [VStr "-w"]) tv_first_master
     = Raise (OpenShiftCheckException "unreachable").
Proof.
  destruct (exec_oc_one_call (VStr "logging") (VStr "get pods") [VStr "-w"]
              tv_first_master "/etc/origin" eq_refl)
    as (rest & Hcall & Hrest & _).
  split.
  - rewrite (Hcall oc_echo). unfold oc_echo. cbn [bind]. apply Hrest.
  - rewrite (Hcall oc_unreachable). reflexivity.
Defined.

(** X17.  What the executor raises comes out of [exec_oc] unchanged, and an
    answer that is not a record (it has no [get]) is an [AttributeError]:
    neither is turned into the check exception. *)
Theorem exec_oc_executor_errors execute_module ns cmd xs tv base :
  get_var tv ["openshift"; "common"; "config_base"] None = Ok (VStr base) ->
  (forall e,
     oc_call execute_module ns base cmd xs tv = Raise e ->
     exec_oc execute_module ns cmd (VList xs) tv = Raise e)
  /\ (forall v,
        oc_call execute_module ns base cmd xs tv = Ok v ->
        is_record v = false ->
        exec_oc execute_module ns cmd (VList xs) tv = Raise AttributeError).
Proof.
  intros Hbase. unfold exec_oc, oc_call. rewrite Hbase.
  cbn [bind os_path_join]. rewrite list_extra_args. cbn [bind].
  split.
  - now intros e ->.
  - intros v -> Hv. destruct v; try discriminate; reflexivity.
Qed.

Lemma exec_oc_executor_errors_witness :
  exec_oc oc_unreachable (VStr "logging") (VStr "get pods") (VList [])
    tv_first_master
  = Raise (OpenShiftCheckException "unreachable")
  /\ exec_oc (fun _ _ _ _ => Ok VNone) (VStr "logging") (VStr "get pods")
       (VList []) tv_first_master
     = Raise AttributeError.
Proof.
  split.
  - apply (proj1 (exec_oc_executor_errors oc_unreachable (VStr "logging")
                    (VStr "get pods") [] tv_first_master "/etc/origin"
                    eq_refl)).
    reflexivity.
  - apply (proj2 (exec_oc_executor_errors (fun _ _ _ _ => Ok VNone)
                    (VStr "logging") (VStr "get pods") [] tv_first_master
                    "/etc/origin" eq_refl) VNone); reflexivity.
Defined.

(** ** Further properties of the query adapter *)

(** X18.  Whatever [get_pods_for_component] returns, one side of the pair
    is [None] and the other is not: either no pods and the message naming
    the component, or a truthy ["items"] value and no message. *)
Theorem get_pods_for_component_one_side
    (json_loads : value -> result value) (execute_module : executor)
    ns component tv pods reason :
  get_pods_for_component json_loads execute_module ns component tv
  = Ok (pods, reason) ->
  (pods = VNone /\ reason = VStr (no_pods_msg component)
   /\ truthy reason = true)
  \/ (reason = VNone /\ truthy pods = true).
Proof.
  unfold get_pods_for_component.
  destruct (exec_oc _ _ _ _ _) as [out|e]; cbn [bind]; [|discriminate].
  destruct (json_loads out) as [v|e]; cbn [bind].
  - destruct (truthy v) eqn:Hv; cbn [negb bind].
    + destruct v as [| | | | |d]; cbn [py_get bind]; try discriminate.
      destruct (lookup "items" d) as [items|] eqn:Hi.
      * destruct (truthy items) eqn:Hit; cbn [negb].
        -- cbn [py_getitem]. rewrite Hi. cbn [bind].
           intros [= <- <-]. now right.
        -- intros [= <- <-]. left. repeat split.
      * cbn. intros [= <- <-]. left. repeat split.
    + intros [= <- <-]. left. repeat split.
  - destruct e; try discriminate. intros [= <- <-]. left. repeat split.
Qed.

Lemma get_pods_for_component_one_side_witness :
  get_pods_for_component json_loads_sample (oc_prints "{}")
    (VStr "logging") (VStr "es") tv_first_master
  = Ok (VNone, VStr (no_pods_msg (VStr "es")))
  /\ ((VNone = VNone
       /\ VStr (no_pods_msg (VStr "es")) = VStr (no_pods_msg (VStr "es"))
       /\ truthy (VStr (no_pods_msg (VStr "es"))) = true)
      \/ (VStr (no_pods_msg (VStr "es")) = VNone /\ truthy VNone = true)).
Proof.
  split; [reflexivity|].
  apply (get_pods_for_component_one_side json_loads_sample (oc_prints "{}")
           (VStr "logging") (VStr "es") tv_first_master).
  reflexivity.
Defined.

(** X19.  A failed transport is never reported as "no pods": when the
    executor answers with [failed] true and a [result],
    [get_pods_for_component] raises the check exception, whatever
    [json.loads] would make of the output. *)
Theorem get_pods_for_component_failed_transport
    (json_loads : value -> result value) (execute_module : executor)
    ns label tv base r error :
  get_var tv ["openshift"; "common"; "config_base"] None = Ok (VStr base) ->
  oc_call execute_module ns base (get_pods_cmd label) [] tv = Ok (VDict r) ->
  failed_flag r = true ->
  lookup "result" r = Some error ->
  exists msg,
    get_pods_for_component json_loads execute_module ns (VStr label) tv
    = Raise (OpenShiftCheckException msg).
Proof.
  intros Hbase Hcall Hfailed Hres. unfold get_pods_for_component.
  change (VStr ("get pods -l component=" ++ py_str (VStr label) ++ " -o json"))
    with (get_pods_cmd label).
  rewrite (exec_oc_eval _ _ _ _ _ _ _ Hbase Hcall), Hfailed, Hres.
  cbn [bind]. eauto.
Qed.

Lemma get_pods_for_component_failed_transport_witness :
  exists msg,
    get_pods_for_component json_loads_sample oc_denied (VStr "logging")
      (VStr "es") tv_first_master
    = Raise (OpenShiftCheckException msg).
Proof.
  apply (get_pods_for_component_failed_transport json_loads_sample oc_denied
           (VStr "logging") "es" tv_first_master "/etc/origin"
           [("failed", VBool true); ("result", VStr "permission denied")]
           (VStr "permission denied")); reflexivity.
Defined.

(** X20.  Only a [ValueError] is taken for "no pods".  Another exception of
    [json.loads] comes out unchanged, and output that is JSON for a truthy
    value other than an object (a non-empty array, a number, a string) fails
    with an [AttributeError]. *)
Theorem get_pods_for_component_uncaught
    (json_loads : value -> result value) (execute_module : executor)
    ns label tv out :
  exec_oc execute_module ns (get_pods_cmd label) (VList []) tv = Ok out ->
  (forall e,
     json_loads out = Raise e -> e <> ValueError ->
     get_pods_for_component json_loads execute_module ns (VStr label) tv
     = Raise e)
  /\ (forall v,
        json_loads out = Ok v -> truthy v = true -> is_record v = false ->
        get_pods_for_component json_loads execute_module ns (VStr label) tv
        = Raise AttributeError).
Proof.
  intros Hout. unfold get_pods_for_component.
  change (VStr ("get pods -l component=" ++ py_str (VStr label) ++ " -o json"))
    with (get_pods_cmd label).
  rewrite Hout. cbn [bind]. split.
  - intros e -> He. cbn [bind]. destruct e; try reflexivity. contradiction.
  - intros v -> Hv Hr. cbn [bind]. rewrite Hv. cbn [negb].
    destruct v; try discriminate; reflexivity.
Qed.

Lemma get_pods_for_component_uncaught_witness :
  get_pods_for_component (fun _ => Ok (VList [VDict []])) (oc_prints "[{}]")
    (VStr "logging") (VStr "es") tv_first_master
  = Raise AttributeError
  /\ get_pods_for_component json_loads_sample
       (answer [("result", VList [])])
       (VStr "logging") (VStr "es") tv_first_master
     = Raise TypeError.
Proof.
  split.
  - apply (proj2 (get_pods_for_component_uncaught
                    (fun _ => Ok (VList [VDict []])) (oc_prints "[{}]")
                    (VStr "logging") "es" tv_first_master (VStr "[{}]")
                    eq_refl) (VList [VDict []])); reflexivity.
  - apply (proj1 (get_pods_for_component_uncaught json_loads_sample
                    (answer [("result", VList [])])
                    (VStr "logging") "es" tv_first_master (VList [])
                    eq_refl) TypeError); [reflexivity | discriminate].
Defined.
